(** * faust.serializers.registry: the serializer Registry

    A shallow embedding of [src/faust/serializers/registry.py] and the
    properties of its dispatch, caching and error-wrapping logic.

    Python objects are first-order values, the Registry's mutable
    [_override] dict is a finite map threaded through a state-and-exception
    monad, and every collaborator that lives outside the module (the codec
    table, the model classes, the external serializer classes) is a field
    of an environment record [Env]. *)

From Stdlib Require Import String ZArith List Bool.
From Stdlib Require Import Strings.Byte.
From stdpp Require Import base option gmap strings list.

Local Open Scope string_scope.
Local Open Scope list_scope.

(** ** Python values *)

(** [CodecArg = Union[CodecT, str]], with [None] admitted everywhere the
    source passes it ([key_serializer: CodecArg = None]). *)
Inductive CodecArg : Type :=
  | CNone
  | CName (name : string)
  | CCodec (codec_id : nat).

(** Python truthiness of a [CodecArg]: [None] and the empty string are
    false, any other string and any codec object are true. *)
Definition truthy (c : CodecArg) : bool :=
  match c with
  | CNone => false
  | CName "" => false
  | CName _ => true
  | CCodec _ => true
  end.

(** [a or b] *)
Definition py_or (a b : CodecArg) : CodecArg :=
  if truthy a then a else b.

(** [repr(name)], used by [str(KeyError(name))]. *)
Definition repr (c : CodecArg) : string :=
  match c with
  | CNone => "None"
  | CName s => "'" ++ s ++ "'"
  | CCodec _ => "<Codec>"
  end.

(** [ModelOptions]: only the [serializer] attribute is read. *)
Record ModelOptions : Type := { serializer : CodecArg }.

(** A model class (a subclass of [ModelT]) with its class-level
    [_options]. *)
Record ModelType : Type := {
  model_name : string;
  _options : ModelOptions
}.

(** [typ._options.serializer] for a model class, and
    [obj._options.serializer] for its instances ([_options] is a class
    attribute). *)
Definition declared_serializer (typ : ModelType) : CodecArg :=
  serializer (_options typ).

(** [Request] is opaque context data. *)
Definition Request : Type := nat.

#[local] Set Warnings "-register-all".

(** Values that flow through the Registry. [VModel typ data req] is an
    instance of the model class [typ] built by [typ(data)] (with
    [req = None]) or [typ(data, req=request)]. *)
Inductive Val : Type :=
  | VNone
  | VBytes (b : list byte)
  | VStr (s : string)
  | VInt (n : Z)
  | VDict (items : list (string * Val))
  | VModel (typ : ModelType) (data : Val) (req : option Request).

(** [Message]: only the [value] slot is read. *)
Record Message : Type := { value : Val }.

(** [isinstance(v, ModelT)] together with [v._options.serializer]. *)
Definition as_model (v : Val) : option ModelType :=
  match v with
  | VModel typ _ _ => Some typ
  | _ => None
  end.

(** ** Exceptions *)

(** The exception classes the module can see.  The last three derive
    from [BaseException] only, so [except Exception] lets them through. *)
Inductive ExcClass : Type :=
  | KeyError
  | AttributeError
  | TypeError
  | ValueError
  | ImportError
  | KeyDecodeError
  | ValueDecodeError
  | OtherException (name : string)
  | KeyboardInterrupt
  | SystemExit
  | GeneratorExit.

(** An exception instance: its class and [str(exc)]. *)
Record Exn : Type := mkExn {
  exc_class : ExcClass;
  exc_str : string
}.

(** [isinstance(exc, Exception)] *)
Definition is_Exception (e : Exn) : bool :=
  match exc_class e with
  | KeyboardInterrupt | SystemExit | GeneratorExit => false
  | _ => true
  end.

(** [isinstance(exc, KeyError)] *)
Definition is_KeyError (e : Exn) : bool :=
  match exc_class e with
  | KeyError => true
  | _ => false
  end.

Inductive Result (A : Type) : Type :=
  | Return (a : A)
  | Raise (e : Exn).
Arguments Return {A} a.
Arguments Raise {A} e.

(** ** The Registry object *)

(** An external (async) serializer instance.  [ser_id] is the identity of
    the Python object: two references are the same object exactly when
    their ids agree.  [ser_registry] is the Registry it was built with. *)
Record Ser : Type := {
  ser_id : nat;
  ser_class : string;
  ser_registry : nat
}.

Record Registry : Type := {
  registry_id : nat;
  override_classes : gmap string string;
  key_serializer : CodecArg;
  value_serializer : CodecArg;
  _override : gmap string Ser
}.

(** The class attribute [Registry.override_classes]. *)
Definition default_override_classes : gmap string string :=
  {[ "avro" := "faust.serializers.avro.faust:AvroSerializer" ]}.

(** [Registry.__init__] *)
Definition Registry_init (rid : nat) (key_serializer value_serializer : CodecArg)
  : Registry :=
  {| registry_id := rid;
     override_classes := default_override_classes;
     key_serializer := key_serializer;
     value_serializer := value_serializer;
     _override := ∅ |}.

(** ** Collaborators outside the module *)

(** What the module imports and calls but does not define.  [loads] and
    [dumps] are the stateless codec table ([.codecs]); [symbol_by_name]
    resolves a class path; [ser_init] is the external serializer class's
    constructor ([None]: it returns normally); the [ser_] functions are
    the awaited methods of an external serializer; [model_init] is the
    model constructor's validation, [model_dumps] is [ModelT.dumps]. *)
Record Env : Type := {
  loads : CodecArg -> Val -> Result Val;
  dumps : CodecArg -> Val -> Result Val;
  want_bytes : Val -> Result Val;
  symbol_by_name : string -> Result string;
  ser_init : string -> option Exn;
  ser_loads : Ser -> Val -> Result Val;
  ser_dumps_key : Ser -> string -> Val -> Result Val;
  ser_dumps_value : Ser -> string -> Val -> Result Val;
  model_init : ModelType -> Val -> option Request -> option Exn;
  model_dumps : Val -> Result Val
}.

(** ** Observable calls *)

(** Every call that leaves the module is recorded, in order. *)
Inductive Event : Type :=
  | EvNew (name : string) (ser : Ser)
  | EvCodecLoads (c : CodecArg) (data : Val)
  | EvCodecDumps (c : CodecArg) (obj : Val)
  | EvWantBytes (obj : Val)
  | EvSerLoads (ser : Ser) (data : Val)
  | EvSerDumpsKey (ser : Ser) (topic : string) (obj : Val)
  | EvSerDumpsValue (ser : Ser) (topic : string) (obj : Val)
  | EvModelNew (typ : ModelType) (obj : Val) (req : option Request)
  | EvModelDumps (obj : Val).

(** The program state: the Registry ([self]), the allocator of object
    identities and the record of outside calls. *)
Record State : Type := {
  self : Registry;
  next_id : nat;
  trace : list Event
}.

(** ** State and exception monad *)

(** An exception does not undo the state changes made before it. *)
Definition M (A : Type) : Type := State -> Result A * State.

Definition ret {A} (a : A) : M A := fun st => (Return a, st).

Definition raise {A} (e : Exn) : M A := fun st => (Raise e, st).

Definition bind {A B} (m : M A) (k : A -> M B) : M B :=
  fun st =>
    match m st with
    | (Return a, st') => k a st'
    | (Raise e, st') => (Raise e, st')
    end.

Declare Scope py_scope.
Delimit Scope py_scope with py.
Notation "x <- m ;; k" := (bind m (fun x => k))
  (at level 100, m at next level, right associativity) : py_scope.
Notation "m ;;; k" := (bind m (fun _ => k))
  (at level 100, right associativity) : py_scope.
Local Open Scope py_scope.

(** Reify the outcome of [m] so that [try ... except ... else] can
    dispatch on it. *)
Definition attempt {A} (m : M A) : M (Result A) :=
  fun st => let (r, st') := m st in (Return r, st').

(** [try: m / except Exception as exc: raise cls(str(exc))] *)
Definition reraise_as {A} (cls : ExcClass) (m : M A) : M A :=
  fun st =>
    match m st with
    | (Raise e, st') =>
        if is_Exception e then (Raise (mkExn cls (exc_str e)), st')
        else (Raise e, st')
    | r => r
    end.

Definition get_self : M Registry := fun st => (Return (self st), st).

Definition log (ev : Event) : M unit :=
  fun st =>
    (Return tt,
     {| self := self st; next_id := next_id st; trace := trace st ++ [ev] |}).

(** Run a pure outside call. *)
Definition lift {A} (r : Result A) : M A := fun st => (r, st).

(** The Registry with one more cache entry. *)
Definition cache_insert (name : string) (ser : Ser) (r : Registry) : Registry :=
  {| registry_id := registry_id r;
     override_classes := override_classes r;
     key_serializer := key_serializer r;
     value_serializer := value_serializer r;
     _override := <[name := ser]> (_override r) |}.

(** [self._override[name] = ser] *)
Definition set_override (name : string) (ser : Ser) : M unit :=
  fun st =>
    (Return tt,
     {| self := cache_insert name ser (self st);
        next_id := next_id st;
        trace := trace st |}).

(** Allocate the object a constructor call returns. *)
Definition fresh_ser (name cls : string) : M Ser :=
  fun st =>
    let ser := {| ser_id := next_id st;
                  ser_class := cls;
                  ser_registry := registry_id (self st) |} in
    (Return ser,
     {| self := self st;
        next_id := S (next_id st);
        trace := trace st ++ [EvNew name ser] |}).

Section Registry.

Context (E : Env).

(** Modelled from the spec: the model classes ([faust.types.ModelT]) are
    not part of the module.  [typ(obj)] and [typ(obj, req=request)]
    construct the model instance from the decoded value and attach the
    request as context; the constructor may reject the value. *)
Definition typ_call (typ : ModelType) (obj : Val) (req : option Request) : M Val :=
  log (EvModelNew typ obj req) ;;;
  match model_init E typ obj req with
  | Some e => raise e
  | None => ret (VModel typ obj req)
  end.

(** [symbol_by_name(path)(self)] *)
Definition construct (name path : string) : M Ser :=
  cls <- lift (symbol_by_name E path) ;;
  match ser_init E cls with
  | Some e => raise e
  | None => fresh_ser name cls
  end.

(** [Registry._get_serializer] *)
Definition _get_serializer (name : CodecArg) : M Ser :=
  match name with
  | CName n =>
      r <- get_self ;;
      match _override r !! n with
      | Some ser => ret ser
      | None =>
          match override_classes r !! n with
          | None => raise (mkExn KeyError (repr name))
          | Some path =>
              ser <- construct n path ;;
              set_override n ser ;;;
              ret ser
          end
      end
  | _ => raise (mkExn KeyError (repr name))
  end.

(** The [try / except KeyError / else] block shared by the four public
    methods: [miss] runs when the lookup raised [KeyError], [hit] when it
    returned a serializer; any other exception propagates. *)
Definition with_serializer {A} (name : CodecArg)
    (miss : M A) (hit : Ser -> M A) : M A :=
  r <- attempt (_get_serializer name) ;;
  match r with
  | Return ser => hit ser
  | Raise e => if is_KeyError e then miss else raise e
  end.

Definition call_loads (c : CodecArg) (data : Val) : M Val :=
  log (EvCodecLoads c data) ;;; lift (loads E c data).

Definition call_dumps (c : CodecArg) (obj : Val) : M Val :=
  log (EvCodecDumps c obj) ;;; lift (dumps E c obj).

Definition call_want_bytes (obj : Val) : M Val :=
  log (EvWantBytes obj) ;;; lift (want_bytes E obj).

Definition call_ser_loads (ser : Ser) (data : Val) : M Val :=
  log (EvSerLoads ser data) ;;; lift (ser_loads E ser data).

Definition call_ser_dumps_key (ser : Ser) (topic : string) (obj : Val) : M Val :=
  log (EvSerDumpsKey ser topic obj) ;;; lift (ser_dumps_key E ser topic obj).

Definition call_ser_dumps_value (ser : Ser) (topic : string) (obj : Val) : M Val :=
  log (EvSerDumpsValue ser topic obj) ;;; lift (ser_dumps_value E ser topic obj).

Definition call_model_dumps (obj : Val) : M Val :=
  log (EvModelDumps obj) ;;; lift (model_dumps E obj).

(** What [typ._options] raises when [typ] is [None]. *)
Definition no_options : Exn :=
  mkExn AttributeError "'NoneType' object has no attribute '_options'".

(** [Registry.loads_key] *)
Definition loads_key (typ : option ModelType) (key : Val) : M Val :=
  match key, typ with
  | VNone, _ => ret key
  | _, None => ret key
  | _, Some t =>
      reraise_as KeyDecodeError
        (let typ_serializer := declared_serializer t in
         r <- get_self ;;
         let serializer := py_or typ_serializer (key_serializer r) in
         obj <- with_serializer serializer
                  (call_loads serializer key)
                  (fun ser => call_ser_loads ser key) ;;
         typ_call t obj None)
  end.

(** [Registry.loads_value] *)
Definition loads_value (typ : option ModelType) (key : Val)
    (message : Message) (request : Request) : M Val :=
  match value message with
  | VNone => ret VNone
  | data =>
      reraise_as ValueDecodeError
        match typ with
        | None => raise no_options
        | Some t =>
            let typ_serializer := declared_serializer t in
            r <- get_self ;;
            let serializer := py_or typ_serializer (value_serializer r) in
            obj <- with_serializer serializer
                     (call_loads serializer data)
                     (fun ser => call_ser_loads ser data) ;;
            typ_call t obj (Some request)
        end
  end.

(** [Registry.dumps_key] *)
Definition dumps_key (topic : string) (key : Val) (serializer : CodecArg)
  : M Val :=
  let '(is_model, serializer) :=
    match as_model key with
    | Some t => (true, declared_serializer t)
    | None => (false, serializer)
    end in
  if truthy serializer then
    with_serializer serializer
      (if is_model then call_model_dumps key else call_dumps serializer key)
      (fun ser => call_ser_dumps_key ser topic key)
  else
    match key with
    | VNone => ret VNone
    | _ => call_want_bytes key
    end.

(** [Registry.dumps_value] *)
Definition dumps_value (topic : string) (value : Val) (serializer : CodecArg)
  : M Val :=
  let '(is_model, serializer) :=
    match as_model value with
    | Some t => (true, declared_serializer t)
    | None => (false, serializer)
    end in
  if truthy serializer then
    with_serializer serializer
      (if is_model then call_model_dumps value else call_dumps serializer value)
      (fun ser => call_ser_dumps_value ser topic value)
  else
    ret value.

(** ** Histories of a Registry *)

(** One use of the Registry by its owner. *)
Inductive Call : Type :=
  | Call_get_serializer (name : CodecArg)
  | Call_loads_key (typ : option ModelType) (key : Val)
  | Call_loads_value (typ : option ModelType) (key : Val)
      (message : Message) (request : Request)
  | Call_dumps_key (topic : string) (key : Val) (serializer : CodecArg)
  | Call_dumps_value (topic : string) (value : Val) (serializer : CodecArg).

(** The state a call leaves behind, whether it returned or raised. *)
Definition exec (c : Call) (st : State) : State :=
  match c with
  | Call_get_serializer name => snd (_get_serializer name st)
  | Call_loads_key typ key => snd (loads_key typ key st)
  | Call_loads_value typ key message request =>
      snd (loads_value typ key message request st)
  | Call_dumps_key topic key serializer =>
      snd (dumps_key topic key serializer st)
  | Call_dumps_value topic value serializer =>
      snd (dumps_value topic value serializer st)
  end.

Definition run (cs : list Call) (st : State) : State :=
  fold_left (fun st c => exec c st) cs st.

End Registry.

(** A program that has just executed [Registry(key_serializer,
    value_serializer)]. *)
Definition init_state (rid : nat) (key_serializer value_serializer : CodecArg)
    (next : nat) : State :=
  {| self := Registry_init rid key_serializer value_serializer;
     next_id := next;
     trace := [] |}.

(** The external serializer instances constructed for [name], oldest
    first. *)
Fixpoint created (name : string) (tr : list Event) : list Ser :=
  match tr with
  | [] => []
  | EvNew n ser :: tr' =>
      if decide (n = name) then ser :: created name tr' else created name tr'
  | _ :: tr' => created name tr'
  end.

(** The codec-table calls in a trace. *)
Fixpoint codec_calls (tr : list Event) : list Event :=
  match tr with
  | [] => []
  | EvCodecLoads c d :: tr' => EvCodecLoads c d :: codec_calls tr'
  | EvCodecDumps c d :: tr' => EvCodecDumps c d :: codec_calls tr'
  | _ :: tr' => codec_calls tr'
  end.

(** The cache, the allocator and the constructed instances are the same
    in both states. *)
Definition same (st st' : State) : Prop :=
  self st' = self st /\
  next_id st' = next_id st /\
  forall n, created n (trace st') = created n (trace st).

(** A computation that never touches the cache nor constructs an
    external serializer. *)
Definition quiet {A} (m : M A) : Prop :=
  forall st, same st (snd (m st)).

(** How one call can change the Registry: either the cache, the allocator
    and the constructed instances stay as they were, or exactly one
    instance was constructed for a name that was not cached and is listed
    in [override_classes], and it was put in the cache. *)
Inductive step (st st' : State) : Prop :=
  | step_quiet :
      self st' = self st ->
      next_id st' = next_id st ->
      (forall n, created n (trace st') = created n (trace st)) ->
      step st st'
  | step_new (name path : string) (ser : Ser) :
      _override (self st) !! name = None ->
      override_classes (self st) !! name = Some path ->
      ser_id ser = next_id st ->
      ser_registry ser = registry_id (self st) ->
      self st' = cache_insert name ser (self st) ->
      next_id st' = S (next_id st) ->
      (forall n, created n (trace st') =
                 created n (trace st) ++ (if decide (name = n) then [ser] else [])) ->
      step st st'.

(** The cache holds exactly the instances that were constructed: one per
    cached name, none for any other name. *)
Definition coherent (st : State) : Prop :=
  forall n, created n (trace st) =
            match _override (self st) !! n with
            | Some ser => [ser]
            | None => []
            end.

(** Every cached name is listed in [override_classes]. *)
Definition cache_sound (r : Registry) : Prop :=
  forall n, is_Some (_override r !! n) -> is_Some (override_classes r !! n).

(** Name resolution finds no external serializer for [name]: it is not a
    string, or a string that is neither cached nor listed. *)
Definition unresolvable (r : Registry) (name : CodecArg) : Prop :=
  match name with
  | CName n => _override r !! n = None /\ override_classes r !! n = None
  | _ => True
  end.

(** Importing and constructing the listed classes never raises
    [KeyError] itself. *)
Definition ctor_no_KeyError (E : Env) (r : Registry) : Prop :=
  forall n path, override_classes r !! n = Some path ->
    match symbol_by_name E path with
    | Raise e => is_KeyError e = false
    | Return cls =>
        match ser_init E cls with
        | Some e => is_KeyError e = false
        | None => True
        end
    end.

(** The codec law assumed by round trips: decoding inverts encoding. *)
Definition codec_roundtrip (E : Env) (s : CodecArg) : Prop :=
  forall v b, dumps E s v = Return b -> loads E s b = Return v.

(** What a decoder makes of a failure [e]: [except Exception] renames it,
    anything else passes. *)
Definition surfaced (cls : ExcClass) (e : Exn) : Exn :=
  if is_Exception e then mkExn cls (exc_str e) else e.

(** The state after the outside calls [evs]. *)
Definition logged (evs : list Event) (st : State) : State :=
  {| self := self st; next_id := next_id st; trace := trace st ++ evs |}.

(** The outcome a decoder reports for the raw outcome [r] of its body. *)
Definition normalized (cls : ExcClass) (r : Result Val) : Result Val :=
  match r with
  | Return v => Return v
  | Raise e => Raise (surfaced cls e)
  end.

(** The decode path in the words of the design: resolve the name; if it
    maps to an external serializer call its decoder on the raw data,
    otherwise call the codec table's decoder; construct the type from the
    decoded object.  [decodes E st s data t req r st'] holds when, from
    state [st], this path for name [s], payload [data], type [t] and
    context [req] ends in [st'] with the raw outcome [r], where every
    failure is still the collaborator's own exception. *)
Inductive decodes (E : Env) (st : State) (s : CodecArg) (data : Val)
    (t : ModelType) (req : option Request) : Result Val -> State -> Prop :=
  | resolution_fails e st1 :
      _get_serializer E s st = (Raise e, st1) ->
      is_KeyError e = false ->
      decodes E st s data t req (Raise e) st1
  | codec_fails e0 st1 e :
      _get_serializer E s st = (Raise e0, st1) ->
      is_KeyError e0 = true ->
      loads E s data = Raise e ->
      decodes E st s data t req (Raise e) (logged [EvCodecLoads s data] st1)
  | external_fails ser st1 e :
      _get_serializer E s st = (Return ser, st1) ->
      ser_loads E ser data = Raise e ->
      decodes E st s data t req (Raise e) (logged [EvSerLoads ser data] st1)
  | codec_construct_fails e0 st1 obj e :
      _get_serializer E s st = (Raise e0, st1) ->
      is_KeyError e0 = true ->
      loads E s data = Return obj ->
      model_init E t obj req = Some e ->
      decodes E st s data t req (Raise e)
        (logged [EvCodecLoads s data; EvModelNew t obj req] st1)
  | external_construct_fails ser st1 obj e :
      _get_serializer E s st = (Return ser, st1) ->
      ser_loads E ser data = Return obj ->
      model_init E t obj req = Some e ->
      decodes E st s data t req (Raise e)
        (logged [EvSerLoads ser data; EvModelNew t obj req] st1)
  | codec_decodes e0 st1 obj :
      _get_serializer E s st = (Raise e0, st1) ->
      is_KeyError e0 = true ->
      loads E s data = Return obj ->
      model_init E t obj req = None ->
      decodes E st s data t req (Return (VModel t obj req))
        (logged [EvCodecLoads s data; EvModelNew t obj req] st1)
  | external_decodes ser st1 obj :
      _get_serializer E s st = (Return ser, st1) ->
      ser_loads E ser data = Return obj ->
      model_init E t obj req = None ->
      decodes E st s data t req (Return (VModel t obj req))
        (logged [EvSerLoads ser data; EvModelNew t obj req] st1).

(** [loads_key] returns an instance of [t] that wraps the value the codec
    table decodes with the Registry's default key serializer. *)
Definition wraps_codec_value (E : Env) (t : ModelType) (data : Val)
    (st : State) : Prop :=
  exists v,
    loads E (key_serializer (self st)) data = Return v /\
    fst (loads_key E (Some t) data st) = Return (VModel t v None).

(** Encoding [t(x)] as a value and decoding what was sent gives
    [t(x, req=request)]. *)
Definition roundtrips (E : Env) (st : State) (topic : string) (t : ModelType)
    (x key : Val) (request : Request) : Prop :=
  exists b st1 st2,
    dumps_value E topic (VModel t x None) CNone st = (Return b, st1) /\
    loads_value E (Some t) key {| value := b |} request st1 =
      (Return (VModel t x (Some request)), st2).

(** ** Sample environments *)

Definition bytes_of (s : string) : list byte := list_byte_of_string s.

(** A codec table that knows ["raw"] (the identity) and passes data
    through when no codec is named; unknown names are a [KeyError]. *)
Definition sample_codec (c : CodecArg) (data : Val) : Result Val :=
  if truthy c then
    match c with
    | CName "raw" => Return data
    | _ => Raise (mkExn KeyError (repr c))
    end
  else Return data.

(** Models encode themselves with the codec they declare. *)
Definition sample_model_dumps (obj : Val) : Result Val :=
  match obj with
  | VModel t data _ => sample_codec (declared_serializer t) data
  | _ => Raise (mkExn AttributeError "object has no attribute 'dumps'")
  end.

Definition sample_env : Env :=
  {| loads := sample_codec;
     dumps := sample_codec;
     want_bytes v :=
       match v with
       | VStr s => Return (VBytes (bytes_of s))
       | _ => Return v
       end;
     symbol_by_name path := Return path;
     ser_init _ := None;
     ser_loads _ data := Return (VDict [("avro", data)]);
     ser_dumps_key _ _ _ := Return (VBytes (bytes_of "avro-key"));
     ser_dumps_value _ _ _ := Return (VBytes (bytes_of "avro-value"));
     model_init _ _ _ := None;
     model_dumps := sample_model_dumps |}.

(** [E] with another decoder in the codec table. *)
Definition with_loads (f : CodecArg -> Val -> Result Val) (E : Env) : Env :=
  {| loads := f;
     dumps := dumps E;
     want_bytes := want_bytes E;
     symbol_by_name := symbol_by_name E;
     ser_init := ser_init E;
     ser_loads := ser_loads E;
     ser_dumps_key := ser_dumps_key E;
     ser_dumps_value := ser_dumps_value E;
     model_init := model_init E;
     model_dumps := model_dumps E |}.

(** [E] with another constructor for the external serializer classes. *)
Definition with_ser_init (f : string -> option Exn) (E : Env) : Env :=
  {| loads := loads E;
     dumps := dumps E;
     want_bytes := want_bytes E;
     symbol_by_name := symbol_by_name E;
     ser_init := f;
     ser_loads := ser_loads E;
     ser_dumps_key := ser_dumps_key E;
     ser_dumps_value := ser_dumps_value E;
     model_init := model_init E;
     model_dumps := model_dumps E |}.

(** [E] with models that encode themselves with [f]. *)
Definition with_model_dumps (f : Val -> Result Val) (E : Env) : Env :=
  {| loads := loads E;
     dumps := dumps E;
     want_bytes := want_bytes E;
     symbol_by_name := symbol_by_name E;
     ser_init := ser_init E;
     ser_loads := ser_loads E;
     ser_dumps_key := ser_dumps_key E;
     ser_dumps_value := ser_dumps_value E;
     model_init := model_init E;
     model_dumps := f |}.

(** A model class that declares no serializer, and one that declares
    ["raw"]. *)
Definition Plain : ModelType :=
  {| model_name := "Plain"; _options := {| serializer := CNone |} |}.

Definition Raw : ModelType :=
  {| model_name := "Raw"; _options := {| serializer := CName "raw" |} |}.

(** [Registry()] with the constructor's defaults. *)
Definition fresh : State := init_state 0 CNone (CName "json") 1.

(** The same Registry after it has resolved ["avro"] once. *)
Definition warm : State :=
  run sample_env [Call_get_serializer (CName "avro")] fresh.

(** [Registry(key_serializer="avro")] and
    [Registry(value_serializer="raw")]. *)
Definition avro_keys : State := init_state 0 (CName "avro") (CName "json") 1.

Definition raw_values : State := init_state 0 CNone (CName "raw") 1.

(** Some payloads and instances. *)
Definition payload : Val := VBytes (bytes_of "x").


Definition raw_model : Val := VModel Raw payload None.

Definition plain_model : Val := VModel Plain payload None.



(** An external serializer class whose constructor looks up a setting
    that is missing. *)
Definition missing_setting : Exn := mkExn KeyError "'schema_registry_url'".

Definition unconfigured_env : Env :=
  with_ser_init (fun _ => Some missing_setting) sample_env.

(** Model classes that override [dumps()] with an encoding of their own. *)
Definition own_encoding_env : Env :=
  with_model_dumps (fun _ => Return (VBytes (bytes_of "own"))) sample_env.

(** ** Further notions *)

(** The serializer the encoders settle on before they look anything up:
    a model's own declared serializer, else the argument. *)
Definition established (obj : Val) (serializer : CodecArg) : CodecArg :=
  match as_model obj with
  | Some t => declared_serializer t
  | None => serializer
  end.

(** How many external serializer instances were constructed. *)
Fixpoint constructions (tr : list Event) : nat :=
  match tr with
  | [] => 0
  | EvNew _ _ :: tr' => S (constructions tr')
  | _ :: tr' => constructions tr'
  end.

(** Importing the class at [path], or constructing it, raises [e]. *)
Definition construct_fails (E : Env) (path : string) (e : Exn) : Prop :=
  symbol_by_name E path = Raise e \/
  exists cls, symbol_by_name E path = Return cls /\ ser_init E cls = Some e.

(** The same program state with other defaults in the Registry. *)
Definition reconfigure (ks vs : CodecArg) (st : State) : State :=
  {| self := {| registry_id := registry_id (self st);
                override_classes := override_classes (self st);
                key_serializer := ks;
                value_serializer := vs;
                _override := _override (self st) |};
     next_id := next_id st;
     trace := trace st |}.

(** A computation that neither reads nor writes the two defaults. *)
Definition blind {A} (m : M A) : Prop :=
  forall ks vs st,
    m (reconfigure ks vs st) = (fst (m st), reconfigure ks vs (snd (m st))).

(** Every cached instance was built with Registry [rid], was allocated at
    or after [lo], and no two names share an instance. *)
Definition well_allocated (rid lo : nat) (st : State) : Prop :=
  registry_id (self st) = rid /\
  lo <= next_id st /\
  (forall n s, _override (self st) !! n = Some s ->
               ser_registry s = rid /\ lo <= ser_id s < next_id st) /\
  (forall n1 n2 s1 s2,
      _override (self st) !! n1 = Some s1 ->
      _override (self st) !! n2 = Some s2 ->
      ser_id s1 = ser_id s2 -> n1 = n2).

(** Encoding [t(x)] as a key and decoding what was sent gives [t(x)]. *)
Definition roundtrips_key (E : Env) (st : State) (topic : string)
    (t : ModelType) (x : Val) : Prop :=
  exists b st1 st2,
    dumps_key E topic (VModel t x None) CNone st = (Return b, st1) /\
    loads_key E (Some t) b st1 = (Return (VModel t x None), st2).

(** [E] with another importer of class paths. *)
Definition with_symbol_by_name (f : string -> Result string) (E : Env) : Env :=
  {| loads := loads E;
     dumps := dumps E;
     want_bytes := want_bytes E;
     symbol_by_name := f;
     ser_init := ser_init E;
     ser_loads := ser_loads E;
     ser_dumps_key := ser_dumps_key E;
     ser_dumps_value := ser_dumps_value E;
     model_init := model_init E;
     model_dumps := model_dumps E |}.

(** [E] with another decoder in the external serializers. *)
Definition with_ser_loads (f : Ser -> Val -> Result Val) (E : Env) : Env :=
  {| loads := loads E;
     dumps := dumps E;
     want_bytes := want_bytes E;
     symbol_by_name := symbol_by_name E;
     ser_init := ser_init E;
     ser_loads := f;
     ser_dumps_key := ser_dumps_key E;
     ser_dumps_value := ser_dumps_value E;
     model_init := model_init E;
     model_dumps := model_dumps E |}.

(** The module of the external serializer is not installed. *)
Definition no_module : Exn :=
  mkExn ImportError "No module named 'faust.serializers.avro'".

Definition missing_module_env : Env :=
  with_symbol_by_name (fun _ => Raise no_module) sample_env.

(** The schema registry rejects what it is asked to decode. *)
Definition bad_schema : Exn := mkExn ValueError "unknown schema id".

Definition rejecting_env : Env :=
  with_ser_loads (fun _ _ => Raise bad_schema) sample_env.

(** A model class that declares the external serializer. *)
Definition Avro : ModelType :=
  {| model_name := "Avro"; _options := {| serializer := CName "avro" |} |}.

(** The first external serializer a program with [Registry()] builds. *)
Definition first_ser : Ser :=
  {| ser_id := 1;
     ser_class := "faust.serializers.avro.faust:AvroSerializer";
     ser_registry := 0 |}.

(** A subclass of [Registry] whose [override_classes] lists a second
    external serializer, just constructed. *)
Definition two_classes : State :=
  {| self := {| registry_id := 0;
                override_classes :=
                  <[ "proto" := "pkg.proto:ProtoSerializer" ]>
                    default_override_classes;
                key_serializer := CNone;
                value_serializer := CName "json";
                _override := ∅ |};
     next_id := 1;
     trace := [] |}.

(** A codec table that also knows ["text"], which decodes bytes to the
    string they spell and encodes a string to its bytes. *)
Definition text_loads (c : CodecArg) (data : Val) : Result Val :=
  match c, data with
  | CName "text", VBytes b => Return (VStr (string_of_list_byte b))
  | CName "text", _ => Raise (mkExn TypeError "a bytes-like object is required")
  | _, _ => sample_codec c data
  end.

Definition text_env : Env := with_loads text_loads sample_env.

(** A model class that declares ["text"]. *)
Definition Text : ModelType :=
  {| model_name := "Text"; _options := {| serializer := CName "text" |} |}.

(** [Registry(key_serializer="text")] and [Registry(key_serializer="raw")]. *)
Definition text_keys : State := init_state 0 (CName "text") (CName "json") 1.

Definition raw_keys : State := init_state 0 (CName "raw") (CName "json") 1.

(** An instance of the model class that declares ["avro"]. *)
Definition avro_model : Val := VModel Avro payload None.


(** * Properties *)

(** ** Name resolution *)

Section Resolution.

Context (E : Env).

Lemma get_serializer_cached st n ser :
  _override (self st) !! n = Some ser ->
  _get_serializer E (CName n) st = (Return ser, st).
Proof.
  intros Hc. unfold _get_serializer, bind, get_self, ret. simpl.
  now rewrite Hc.
Qed.

Lemma get_serializer_miss st name :
  unresolvable (self st) name ->
  _get_serializer E name st = (Raise (mkExn KeyError (repr name)), st).
Proof.
  destruct name as [|n|c]; simpl; try reflexivity.
  intros [Hc Ht]. unfold bind, get_self, raise. simpl.
  now rewrite Hc, Ht.
Qed.

Lemma get_serializer_new st n path cls :
  _override (self st) !! n = None ->
  override_classes (self st) !! n = Some path ->
  symbol_by_name E path = Return cls ->
  ser_init E cls = None ->
  let ser := {| ser_id := next_id st; ser_class := cls;
                ser_registry := registry_id (self st) |} in
  _get_serializer E (CName n) st =
    (Return ser,
     {| self := cache_insert n ser (self st);
        next_id := S (next_id st);
        trace := trace st ++ [EvNew n ser] |}).
Proof.
  intros Hc Ht Hs Hi. simpl.
  unfold _get_serializer, bind, get_self, construct, bind, lift. simpl.
  rewrite Hc, Ht, Hs, Hi. reflexivity.
Qed.

End Resolution.

(** ** Constructed instances and quiet computations *)

Lemma created_app n tr1 tr2 :
  created n (tr1 ++ tr2) = created n tr1 ++ created n tr2.
Proof.
  induction tr1 as [|ev tr1 IH]; simpl; [reflexivity|].
  destruct ev; try exact IH.
  case_decide; simpl; now rewrite IH.
Qed.

Lemma same_refl st : same st st.
Proof. repeat split. Qed.

Lemma same_trans st1 st2 st3 : same st1 st2 -> same st2 st3 -> same st1 st3.
Proof.
  intros (Hs & Hn & Hc) (Hs' & Hn' & Hc').
  split; [congruence|split; [congruence|]].
  intros n. now rewrite Hc', Hc.
Qed.

Lemma step_same st1 st2 st3 : step st1 st2 -> same st2 st3 -> step st1 st3.
Proof.
  intros [Hs Hn Hc | name path ser Hm Ht Hid Hreg Hs Hn Hc] (Hs' & Hn' & Hc').
  - apply step_quiet; [congruence|congruence|].
    intros n. now rewrite Hc', Hc.
  - apply (step_new _ _ name path ser); try assumption.
    + congruence.
    + congruence.
    + intros n. now rewrite Hc', Hc.
Qed.

Lemma quiet_ret {A} (a : A) : quiet (ret a).
Proof. intros st. apply same_refl. Qed.

Lemma quiet_raise {A} (e : Exn) : quiet (@raise A e).
Proof. intros st. apply same_refl. Qed.

Lemma quiet_lift {A} (r : Result A) : quiet (lift r).
Proof. intros st. apply same_refl. Qed.

Lemma quiet_get_self : quiet get_self.
Proof. intros st. apply same_refl. Qed.

Lemma quiet_bind {A B} (m : M A) (k : A -> M B) :
  quiet m -> (forall a, quiet (k a)) -> quiet (bind m k).
Proof.
  intros Hm Hk st. unfold bind. specialize (Hm st).
  destruct (m st) as [[a|e] st1]; simpl in *; [|exact Hm].
  eapply same_trans; [exact Hm|apply Hk].
Qed.

Lemma quiet_log ev :
  (forall n ser, ev <> EvNew n ser) -> quiet (log ev).
Proof.
  intros Hev st. repeat split. intros n. simpl.
  rewrite created_app. destruct ev; simpl; try apply app_nil_r.
  now destruct (Hev name ser).
Qed.

Lemma snd_reraise_as {A} cls (m : M A) st :
  snd (reraise_as cls m st) = snd (m st).
Proof.
  unfold reraise_as. destruct (m st) as [[a|e] st1]; simpl; [reflexivity|].
  now destruct (is_Exception e).
Qed.

Create HintDb quiet.
#[local] Hint Resolve quiet_ret quiet_raise quiet_lift quiet_get_self : quiet.

Ltac quiet_call :=
  apply quiet_bind; [apply quiet_log; discriminate | intros; auto with quiet].

Section Steps.

Context (E : Env).

Lemma quiet_typ_call t obj req : quiet (typ_call E t obj req).
Proof. unfold typ_call. quiet_call. destruct (model_init E t obj req); auto with quiet. Qed.

Lemma quiet_call_loads c d : quiet (call_loads E c d).
Proof. unfold call_loads. quiet_call. Qed.

Lemma quiet_call_dumps c d : quiet (call_dumps E c d).
Proof. unfold call_dumps. quiet_call. Qed.

Lemma quiet_call_want_bytes d : quiet (call_want_bytes E d).
Proof. unfold call_want_bytes. quiet_call. Qed.

Lemma quiet_call_ser_loads s d : quiet (call_ser_loads E s d).
Proof. unfold call_ser_loads. quiet_call. Qed.

Lemma quiet_call_ser_dumps_key s t d : quiet (call_ser_dumps_key E s t d).
Proof. unfold call_ser_dumps_key. quiet_call. Qed.

Lemma quiet_call_ser_dumps_value s t d : quiet (call_ser_dumps_value E s t d).
Proof. unfold call_ser_dumps_value. quiet_call. Qed.

Lemma quiet_call_model_dumps d : quiet (call_model_dumps E d).
Proof. unfold call_model_dumps. quiet_call. Qed.

(** A resolution either leaves the Registry alone (hit, miss, failed
    construction) or constructs and caches one instance. *)
Lemma get_serializer_step name st :
  step st (snd (_get_serializer E name st)).
Proof.
  destruct name as [|n|c]; try (apply step_quiet; reflexivity).
  unfold _get_serializer, bind, get_self. simpl.
  destruct (_override (self st) !! n) as [ser|] eqn:Hc;
    [apply step_quiet; reflexivity|].
  destruct (override_classes (self st) !! n) as [path|] eqn:Ht;
    [|apply step_quiet; reflexivity].
  unfold construct, bind, lift.
  destruct (symbol_by_name E path) as [cls|e]; [|apply step_quiet; reflexivity].
  destruct (ser_init E cls) as [e|]; [apply step_quiet; reflexivity|].
  simpl.
  apply (step_new _ _ n path
           {| ser_id := next_id st; ser_class := cls;
              ser_registry := registry_id (self st) |});
    try assumption; try reflexivity.
  intros m. simpl. now rewrite created_app.
Qed.

Lemma with_serializer_step {A} name (miss : M A) (hit : Ser -> M A) st :
  quiet miss -> (forall ser, quiet (hit ser)) ->
  step st (snd (with_serializer E name miss hit st)).
Proof.
  intros Hm Hh. unfold with_serializer, bind, attempt.
  pose proof (get_serializer_step name st) as Hs.
  destruct (_get_serializer E name st) as [[ser|e] st1]; simpl in *.
  - eapply step_same; [exact Hs|apply Hh].
  - destruct (is_KeyError e).
    + eapply step_same; [exact Hs|apply Hm].
    + exact Hs.
Qed.

Lemma bind_step {A B} (m : M A) (k : A -> M B) st :
  step st (snd (m st)) -> (forall a, quiet (k a)) ->
  step st (snd (bind m k st)).
Proof.
  intros Hs Hk. unfold bind.
  destruct (m st) as [[a|e] st1]; simpl in *; [|exact Hs].
  eapply step_same; [exact Hs|apply Hk].
Qed.

Lemma same_step st st' : same st st' -> step st st'.
Proof. intros (Hs & Hn & Hc). now apply step_quiet. Qed.

Hint Resolve quiet_typ_call quiet_call_loads quiet_call_dumps
  quiet_call_want_bytes quiet_call_ser_loads quiet_call_ser_dumps_key
  quiet_call_ser_dumps_value quiet_call_model_dumps : quiet.

Lemma loads_key_step typ key st : step st (snd (loads_key E typ key st)).
Proof.
  unfold loads_key.
  destruct typ as [t|]; [|destruct key; apply step_quiet; reflexivity].
  destruct key; try (apply step_quiet; reflexivity);
    rewrite snd_reraise_as; unfold bind at 1, get_self;
    (apply bind_step; [apply with_serializer_step|]; auto with quiet).
Qed.

Lemma loads_value_step typ key message request st :
  step st (snd (loads_value E typ key message request st)).
Proof.
  unfold loads_value.
  destruct (value message) eqn:Hv; try (apply step_quiet; reflexivity);
    rewrite snd_reraise_as;
    (destruct typ as [t|]; [|apply step_quiet; reflexivity]);
    unfold bind at 1, get_self;
    (apply bind_step; [apply with_serializer_step|]; auto with quiet).
Qed.

Lemma dumps_key_step topic key serializer st :
  step st (snd (dumps_key E topic key serializer st)).
Proof.
  unfold dumps_key.
  destruct (as_model key) as [t|].
  - destruct (truthy (declared_serializer t)).
    + apply with_serializer_step; auto with quiet.
    + apply same_step.
      destruct key; try apply same_refl; apply quiet_call_want_bytes.
  - destruct (truthy serializer).
    + apply with_serializer_step; auto with quiet.
    + apply same_step.
      destruct key; try apply same_refl; apply quiet_call_want_bytes.
Qed.

Lemma dumps_value_step topic value serializer st :
  step st (snd (dumps_value E topic value serializer st)).
Proof.
  unfold dumps_value.
  destruct (as_model value) as [t|].
  - destruct (truthy (declared_serializer t)).
    + apply with_serializer_step; auto with quiet.
    + apply step_quiet; reflexivity.
  - destruct (truthy serializer).
    + apply with_serializer_step; auto with quiet.
    + apply step_quiet; reflexivity.
Qed.

Lemma exec_step c st : step st (exec E c st).
Proof.
  destruct c; simpl.
  - apply get_serializer_step.
  - apply loads_key_step.
  - apply loads_value_step.
  - apply dumps_key_step.
  - apply dumps_value_step.
Qed.

End Steps.

(** ** Invariants of the cache *)

Lemma step_coherent st st' : step st st' -> coherent st -> coherent st'.
Proof.
  intros [Hs Hn Hc | name path ser Hm Ht Hid Hreg Hs Hn Hc] Hco n.
  - rewrite Hc, Hs. apply Hco.
  - rewrite Hc, Hs, Hco. simpl.
    case_decide as Hd.
    + subst n. now rewrite Hm, lookup_insert_eq.
    + rewrite lookup_insert_ne by exact Hd. apply app_nil_r.
Qed.

Lemma step_lookup_stable st st' n ser :
  step st st' ->
  _override (self st) !! n = Some ser ->
  _override (self st') !! n = Some ser.
Proof.
  intros [Hs Hn Hc | name path ser' Hm Ht Hid Hreg Hs Hn Hc] Hl.
  - now rewrite Hs.
  - rewrite Hs. simpl. rewrite lookup_insert_ne; [exact Hl|].
    intros ->. congruence.
Qed.

Lemma step_config st st' :
  step st st' ->
  registry_id (self st') = registry_id (self st) /\
  override_classes (self st') = override_classes (self st) /\
  key_serializer (self st') = key_serializer (self st) /\
  value_serializer (self st') = value_serializer (self st).
Proof.
  intros [Hs Hn Hc | name path ser' Hm Ht Hid Hreg Hs Hn Hc];
    rewrite Hs; repeat split.
Qed.

Lemma step_cache_sound st st' :
  step st st' -> cache_sound (self st) -> cache_sound (self st').
Proof.
  intros Hstep Hso n.
  destruct (step_config _ _ Hstep) as (_ & Htab & _). rewrite Htab.
  destruct Hstep as [Hs Hn Hc | name path ser' Hm Ht Hid Hreg Hs Hn Hc];
    rewrite Hs; [apply Hso|].
  simpl. destruct (decide (name = n)) as [->|Hne].
  - intros _. now rewrite Ht.
  - rewrite lookup_insert_ne by exact Hne. apply Hso.
Qed.

Section Histories.

Context (E : Env).

(** Whatever holds initially and survives each step holds after any
    history. *)
Lemma run_invariant (P : State -> Prop) :
  (forall st st', step st st' -> P st -> P st') ->
  forall cs st, P st -> P (run E cs st).
Proof.
  intros Hstep cs. induction cs as [|c cs IH]; intros st HP; [exact HP|].
  simpl. apply IH. eapply Hstep; [apply exec_step|exact HP].
Qed.

Lemma run_coherent cs st : coherent st -> coherent (run E cs st).
Proof. apply run_invariant. exact step_coherent. Qed.

Lemma run_cache_sound cs st :
  cache_sound (self st) -> cache_sound (self (run E cs st)).
Proof.
  apply (run_invariant (fun st => cache_sound (self st))).
  exact step_cache_sound.
Qed.

Lemma run_lookup_stable cs st n ser :
  _override (self st) !! n = Some ser ->
  _override (self (run E cs st)) !! n = Some ser.
Proof.
  apply (run_invariant (fun st => _override (self st) !! n = Some ser)).
  intros st1 st2 Hs. now apply step_lookup_stable.
Qed.

Lemma run_registry_id cs st :
  registry_id (self (run E cs st)) = registry_id (self st).
Proof.
  apply (run_invariant
           (fun st' => registry_id (self st') = registry_id (self st)));
    [|reflexivity].
  intros st1 st2 Hs H. destruct (step_config _ _ Hs) as (Hid & _). congruence.
Qed.

Lemma run_override_classes cs st :
  override_classes (self (run E cs st)) = override_classes (self st).
Proof.
  apply (run_invariant
           (fun st' => override_classes (self st') = override_classes (self st)));
    [|reflexivity].
  intros st1 st2 Hs H. destruct (step_config _ _ Hs) as (_ & Ht & _).
  congruence.
Qed.

End Histories.

Lemma init_coherent rid ks vs next : coherent (init_state rid ks vs next).
Proof. intros n. simpl. now rewrite lookup_empty. Qed.

Lemma init_cache_sound rid ks vs next :
  cache_sound (self (init_state rid ks vs next)).
Proof. intros n. simpl. rewrite lookup_empty. now intros [? ?]. Qed.

(** With a sound cache, a name that is not listed is not cached either. *)
Lemma unlisted_unresolvable r name :
  cache_sound r ->
  (forall n, name = CName n -> override_classes r !! n = None) ->
  unresolvable r name.
Proof.
  intros Hso Hnot. destruct name as [|n|c]; simpl; try exact I.
  split; [|now apply Hnot].
  destruct (_override r !! n) as [ser|] eqn:Hc; [|reflexivity].
  destruct (Hso n) as [p Hp]; [rewrite Hc; now eexists|].
  rewrite (Hnot n eq_refl) in Hp. discriminate.
Qed.

Lemma coherent_at_most_one st n :
  coherent st -> length (created n (trace st)) <= 1.
Proof.
  intros Hco. rewrite (Hco n).
  destruct (_override (self st) !! n); simpl; lia.
Qed.

(** ** What a resolution outcome means for the callers *)

Section Dispatch.

Context (E : Env).

Lemma with_serializer_miss {A} name (miss : M A) (hit : Ser -> M A) st e st1 :
  _get_serializer E name st = (Raise e, st1) ->
  is_KeyError e = true ->
  with_serializer E name miss hit st = miss st1.
Proof.
  intros Hg He. unfold with_serializer, bind, attempt. now rewrite Hg, He.
Qed.

Lemma with_serializer_hit {A} name (miss : M A) (hit : Ser -> M A) st ser st1 :
  _get_serializer E name st = (Return ser, st1) ->
  with_serializer E name miss hit st = hit ser st1.
Proof.
  intros Hg. unfold with_serializer, bind, attempt. now rewrite Hg.
Qed.

Lemma with_serializer_fail {A} name (miss : M A) (hit : Ser -> M A) st e st1 :
  _get_serializer E name st = (Raise e, st1) ->
  is_KeyError e = false ->
  with_serializer E name miss hit st = (Raise e, st1).
Proof.
  intros Hg He. unfold with_serializer, bind, attempt. now rewrite Hg, He.
Qed.

(** The body of both decoders after the guards. *)
Lemma decode_body cls s data t req r st st' :
  decodes E st s data t req r st' ->
  reraise_as cls
    (obj <- with_serializer E s (call_loads E s data)
              (fun ser => call_ser_loads E ser data) ;;
     typ_call E t obj req) st
  = (normalized cls r, st').
Proof.
  intros H. unfold reraise_as, bind at 1.
  destruct H as [e st1 Hg He | e0 st1 e Hg He Hl | ser st1 e Hg Hl
                | e0 st1 obj e Hg He Hl Hi | ser st1 obj e Hg Hl Hi
                | e0 st1 obj Hg He Hl Hi | ser st1 obj Hg Hl Hi].
  - rewrite (with_serializer_fail _ _ _ _ _ _ Hg He). simpl.
    unfold surfaced. now destruct (is_Exception e).
  - rewrite (with_serializer_miss _ _ _ _ _ _ Hg He).
    unfold call_loads, bind, log, lift. simpl. rewrite Hl.
    unfold surfaced, logged. now destruct (is_Exception e).
  - rewrite (with_serializer_hit _ _ _ _ _ _ Hg).
    unfold call_ser_loads, bind, log, lift. simpl. rewrite Hl.
    unfold surfaced, logged. now destruct (is_Exception e).
  - rewrite (with_serializer_miss _ _ _ _ _ _ Hg He).
    unfold call_loads, typ_call, bind, log, lift, raise. simpl.
    rewrite Hl. simpl. rewrite Hi. rewrite <- app_assoc.
    unfold surfaced, logged. now destruct (is_Exception e).
  - rewrite (with_serializer_hit _ _ _ _ _ _ Hg).
    unfold call_ser_loads, typ_call, bind, log, lift, raise. simpl.
    rewrite Hl. simpl. rewrite Hi. rewrite <- app_assoc.
    unfold surfaced, logged. now destruct (is_Exception e).
  - rewrite (with_serializer_miss _ _ _ _ _ _ Hg He).
    unfold call_loads, typ_call, bind, log, lift, ret. simpl.
    rewrite Hl. simpl. rewrite Hi. now rewrite <- app_assoc.
  - rewrite (with_serializer_hit _ _ _ _ _ _ Hg).
    unfold call_ser_loads, typ_call, bind, log, lift, ret. simpl.
    rewrite Hl. simpl. rewrite Hi. now rewrite <- app_assoc.
Qed.


Lemma reraise_bind_ext {A B} cls (m m' : M A) (k : A -> M B) st :
  m st = m' st ->
  reraise_as cls (bind m k) st = reraise_as cls (bind m' k) st.
Proof. intros H. unfold reraise_as, bind. now rewrite H. Qed.

Lemma loads_key_present t data st :
  data <> VNone ->
  let s := py_or (declared_serializer t) (key_serializer (self st)) in
  loads_key E (Some t) data st =
    reraise_as KeyDecodeError
      (obj <- with_serializer E s (call_loads E s data)
                (fun ser => call_ser_loads E ser data) ;;
       typ_call E t obj None) st.
Proof. intros Hd. destruct data; try (now destruct Hd); reflexivity. Qed.

Lemma loads_value_present t k data request st :
  data <> VNone ->
  let s := py_or (declared_serializer t) (value_serializer (self st)) in
  loads_value E (Some t) k {| value := data |} request st =
    reraise_as ValueDecodeError
      (obj <- with_serializer E s (call_loads E s data)
                (fun ser => call_ser_loads E ser data) ;;
       typ_call E t obj (Some request)) st.
Proof. intros Hd. destruct data; try (now destruct Hd); reflexivity. Qed.

Lemma loads_key_decodes t data st r st' :
  data <> VNone ->
  decodes E st (py_or (declared_serializer t) (key_serializer (self st)))
    data t None r st' ->
  loads_key E (Some t) data st = (normalized KeyDecodeError r, st').
Proof.
  intros Hd H. apply (decode_body KeyDecodeError) in H.
  destruct data; try (now destruct Hd); exact H.
Qed.

Lemma loads_value_decodes t key data request st r st' :
  data <> VNone ->
  decodes E st (py_or (declared_serializer t) (value_serializer (self st)))
    data t (Some request) r st' ->
  loads_value E (Some t) key {| value := data |} request st
  = (normalized ValueDecodeError r, st').
Proof.
  intros Hd H. apply (decode_body ValueDecodeError) in H.
  destruct data; try (now destruct Hd); exact H.
Qed.

(** On a miss a model instance is encoded by its own [dumps()]. *)
Lemma encode_model_miss topic t data req override st :
  truthy (declared_serializer t) = true ->
  unresolvable (self st) (declared_serializer t) ->
  let m := VModel t data req in
  dumps_key E topic m override st =
    (model_dumps E m, logged [EvModelDumps m] st) /\
  dumps_value E topic m override st =
    (model_dumps E m, logged [EvModelDumps m] st).
Proof.
  intros Ht Hm m. pose proof (get_serializer_miss E st _ Hm) as Hg.
  unfold dumps_key, dumps_value. simpl. rewrite Ht.
  now rewrite !(with_serializer_miss _ _ _ _ _ _ Hg eq_refl).
Qed.


End Dispatch.

(** ** The external-serializer cache is a memoization table *)

(** C1: on any Registry (the state after any history of calls on a freshly
    constructed one), for a name listed in [override_classes] whose class
    imports and constructs, the first resolution constructs exactly one
    instance, built with this Registry and stored in the cache; after any
    further history a resolution of the same name returns that very
    instance and constructs nothing; no name ever has more than one
    instance. *)
Theorem get_serializer_memoizes
    (E : Env) (rid : nat) (ks vs : CodecArg) (next : nat)
    (before : list Call) (n path cls : string) :
  let st := run E before (init_state rid ks vs next) in
  _override (self st) !! n = None ->
  override_classes (self st) !! n = Some path ->
  symbol_by_name E path = Return cls ->
  ser_init E cls = None ->
  exists ser st1,
    _get_serializer E (CName n) st = (Return ser, st1) /\
    created n (trace st) = [] /\
    trace st1 = trace st ++ [EvNew n ser] /\
    ser_registry ser = rid /\
    _override (self st1) !! n = Some ser /\
    (forall after,
        let st2 := run E after st1 in
        _get_serializer E (CName n) st2 = (Return ser, st2) /\
        created n (trace st2) = [ser]) /\
    (forall after m, length (created m (trace (run E after st1))) <= 1).
Proof.
  intros st Hc Ht Hs Hi.
  assert (Hco : coherent st) by apply run_coherent, init_coherent.
  pose proof (get_serializer_new E st n path cls Hc Ht Hs Hi) as Hnew.
  cbv zeta in Hnew.
  set (ser := {| ser_id := next_id st; ser_class := cls;
                 ser_registry := registry_id (self st) |}) in *.
  set (st1 := {| self := cache_insert n ser (self st);
                 next_id := S (next_id st);
                 trace := trace st ++ [EvNew n ser] |}) in *.
  assert (Hstep : step st st1).
  { replace st1 with (snd (_get_serializer E (CName n) st))
      by now rewrite Hnew.
    apply get_serializer_step. }
  assert (Hco1 : coherent st1) by (eapply step_coherent; eassumption).
  assert (Hl1 : _override (self st1) !! n = Some ser)
    by apply lookup_insert_eq.
  exists ser, st1. repeat split.
  - exact Hnew.
  - now rewrite (Hco n), Hc.
  - unfold ser. simpl. unfold st. now rewrite run_registry_id.
  - exact Hl1.
  - apply get_serializer_cached. now apply run_lookup_stable.
  - rewrite (run_coherent E after st1 Hco1 n).
    now rewrite (run_lookup_stable E after st1 n ser Hl1).
  - intros after m. apply coherent_at_most_one. now apply run_coherent.
Qed.

(** The first resolution on [Registry()] in the sample environment. *)
Lemma get_serializer_memoizes_witness :
  exists ser st1,
    _get_serializer sample_env (CName "avro") fresh = (Return ser, st1) /\
    ser_id ser = 1 /\
    _get_serializer sample_env (CName "avro")
      (run sample_env [Call_loads_key (Some Plain) (VBytes (bytes_of "k"));
                       Call_get_serializer (CName "avro")] st1)
    = (Return ser,
       run sample_env [Call_loads_key (Some Plain) (VBytes (bytes_of "k"));
                       Call_get_serializer (CName "avro")] st1).
Proof.
  destruct (get_serializer_memoizes sample_env 0 CNone (CName "json") 1 []
              "avro" "faust.serializers.avro.faust:AvroSerializer"
              "faust.serializers.avro.faust:AvroSerializer")
    as (ser & st1 & Hget & _ & _ & _ & _ & Hafter & _);
    try reflexivity.
  exists ser, st1. split; [exact Hget|]. split.
  - change (run sample_env [] (init_state 0 CNone (CName "json") 1))
      with fresh in Hget.
    vm_compute in Hget. now inversion Hget.
  - apply Hafter.
Defined.

(** ** Absence propagation *)

(** C5: an absent key stays absent whatever the type, a key with no type
    is returned unchanged, and a message without a value gives an absent
    event; in all three cases the state, and with it the record of outside
    calls, is untouched and nothing is raised. *)
Theorem absence_propagates
    (E : Env) (typ : option ModelType) (k : Val) (request : Request)
    (st : State) :
  loads_key E typ VNone st = (Return VNone, st) /\
  loads_key E None k st = (Return k, st) /\
  loads_value E typ k {| value := VNone |} request st = (Return VNone, st).
Proof.
  split; [reflexivity|split].
  - now destruct k.
  - reflexivity.
Qed.

(** ** Encoding *)

(** C6: an untyped value passed without a serializer override comes back
    from [dumps_value] as it is, whatever the Registry's default value
    serializer; no serializer is consulted. *)
Theorem dumps_value_untyped_passthrough
    (E : Env) (topic : string) (v : Val) (st : State) :
  as_model v = None ->
  dumps_value E topic v CNone st = (Return v, st).
Proof.
  intros Hm. unfold dumps_value. now rewrite Hm.
Qed.

(** [Registry(value_serializer="json").dumps_value("topic1", {"a": 1})] *)
Lemma dumps_value_untyped_passthrough_witness :
  value_serializer (self fresh) = CName "json" /\
  dumps_value sample_env "topic1" (VDict [("a", VInt 1)]) CNone fresh
  = (Return (VDict [("a", VInt 1)]), fresh).
Proof.
  split; [reflexivity|].
  apply (dumps_value_untyped_passthrough sample_env "topic1"
           (VDict [("a", VInt 1)]) fresh).
  reflexivity.
Defined.

(** C8: for a model instance the serializer argument is discarded and the
    model's own declared serializer decides the path.  Any two overrides
    give the same outcome and state, namely that of passing the declared
    serializer itself.  When the model declares a serializer, it is that
    name which is resolved: if the resolution returns an external
    serializer, its [dumps_key] (respectively [dumps_value]) is called
    with the topic and the model; if it misses, the model's own [dumps()]
    is called; any other failure of the resolution comes out unchanged.
    When the model declares none, the key encoder hands the instance to
    [want_bytes] and the value encoder returns it as it is. *)
Theorem model_serializer_beats_override
    (E : Env) (topic : string) (t : ModelType) (data : Val)
    (req : option Request) (override other : CodecArg) (st : State) :
  let m := VModel t data req in
  (dumps_key E topic m override st =
     dumps_key E topic m (declared_serializer t) st /\
   dumps_value E topic m override st =
     dumps_value E topic m (declared_serializer t) st /\
   dumps_key E topic m override st = dumps_key E topic m other st /\
   dumps_value E topic m override st = dumps_value E topic m other st) /\
  (truthy (declared_serializer t) = true ->
   forall ser st1,
     _get_serializer E (declared_serializer t) st = (Return ser, st1) ->
     dumps_key E topic m override st =
       (ser_dumps_key E ser topic m, logged [EvSerDumpsKey ser topic m] st1) /\
     dumps_value E topic m override st =
       (ser_dumps_value E ser topic m,
        logged [EvSerDumpsValue ser topic m] st1)) /\
  (truthy (declared_serializer t) = true ->
   forall e st1,
     _get_serializer E (declared_serializer t) st = (Raise e, st1) ->
     is_KeyError e = true ->
     dumps_key E topic m override st =
       (model_dumps E m, logged [EvModelDumps m] st1) /\
     dumps_value E topic m override st =
       (model_dumps E m, logged [EvModelDumps m] st1)) /\
  (truthy (declared_serializer t) = true ->
   forall e st1,
     _get_serializer E (declared_serializer t) st = (Raise e, st1) ->
     is_KeyError e = false ->
     dumps_key E topic m override st = (Raise e, st1) /\
     dumps_value E topic m override st = (Raise e, st1)) /\
  (truthy (declared_serializer t) = false ->
   dumps_key E topic m override st =
     (want_bytes E m, logged [EvWantBytes m] st) /\
   dumps_value E topic m override st = (Return m, st)).
Proof.
  intros m. split; [repeat split|].
  split; [|split; [|split]].
  - intros Ht ser st1 Hg. unfold dumps_key, dumps_value. simpl. rewrite Ht.
    now rewrite !(with_serializer_hit E _ _ _ _ _ _ Hg).
  - intros Ht e st1 Hg He. unfold dumps_key, dumps_value. simpl. rewrite Ht.
    now rewrite !(with_serializer_miss E _ _ _ _ _ _ Hg He).
  - intros Ht e st1 Hg He. unfold dumps_key, dumps_value. simpl. rewrite Ht.
    now rewrite !(with_serializer_fail E _ _ _ _ _ _ Hg He).
  - intros Ht. unfold dumps_key, dumps_value. simpl. rewrite Ht.
    split; reflexivity.
Qed.

(** On [Registry()]: a model that declares ["raw"] passed with the
    override ["avro"] is encoded by its own [dumps()] and no external
    serializer is constructed; a model that declares ["avro"] passed with
    the override ["raw"] is encoded by the external serializer; a model
    that declares nothing passed with the override ["raw"] is not
    encoded. *)
Lemma model_serializer_beats_override_witness :
  (dumps_key sample_env "topic1" raw_model (CName "avro") fresh =
     (Return payload, logged [EvModelDumps raw_model] fresh) /\
   dumps_value sample_env "topic1" raw_model (CName "avro") fresh =
     (Return payload, logged [EvModelDumps raw_model] fresh)) /\
  (dumps_key sample_env "topic1" avro_model (CName "raw") fresh =
     (Return (VBytes (bytes_of "avro-key")),
      logged [EvSerDumpsKey first_ser "topic1" avro_model] warm) /\
   dumps_value sample_env "topic1" avro_model (CName "raw") fresh =
     (Return (VBytes (bytes_of "avro-value")),
      logged [EvSerDumpsValue first_ser "topic1" avro_model] warm)) /\
  (dumps_key sample_env "topic1" plain_model (CName "raw") fresh =
     (Return plain_model, logged [EvWantBytes plain_model] fresh) /\
   dumps_value sample_env "topic1" plain_model (CName "raw") fresh =
     (Return plain_model, fresh)).
Proof.
  split; [|split].
  - destruct (model_serializer_beats_override sample_env "topic1" Raw payload
                None (CName "avro") CNone fresh) as (_ & _ & Hmiss & _).
    exact (Hmiss eq_refl (mkExn KeyError "'raw'") fresh eq_refl eq_refl).
  - destruct (model_serializer_beats_override sample_env "topic1" Avro payload
                None (CName "raw") CNone fresh) as (_ & Hhit & _).
    exact (Hhit eq_refl first_ser warm eq_refl).
  - destruct (model_serializer_beats_override sample_env "topic1" Plain payload
                None (CName "raw") CNone fresh) as (_ & _ & _ & _ & Hnone).
    exact (Hnone eq_refl).
Defined.

(** C7: on any Registry (the state after any history of calls on a freshly
    constructed one), a model instance that declares a serializer (its
    [_options.serializer] is true for Python, which is what the encoders
    test) not listed in [override_classes] is encoded by its own
    [dumps()]: both encoders return exactly what that call returns, it is
    the only outside call made, and the cache is unchanged. *)
Theorem model_encode_fallback
    (E : Env) (rid : nat) (ks vs : CodecArg) (next : nat)
    (before : list Call) (topic : string) (t : ModelType) (data : Val)
    (req : option Request) (override : CodecArg) :
  let st := run E before (init_state rid ks vs next) in
  let m := VModel t data req in
  truthy (declared_serializer t) = true ->
  (forall n, declared_serializer t = CName n ->
             override_classes (self st) !! n = None) ->
  dumps_key E topic m override st =
    (model_dumps E m, logged [EvModelDumps m] st) /\
  dumps_value E topic m override st =
    (model_dumps E m, logged [EvModelDumps m] st).
Proof.
  intros st m Hdecl Hnot.
  apply encode_model_miss; [exact Hdecl|].
  apply unlisted_unresolvable; [|exact Hnot].
  apply run_cache_sound, init_cache_sound.
Qed.

(** A model that declares ["raw"] on a Registry that already resolved
    ["avro"]. *)
Lemma model_encode_fallback_witness :
  dumps_key sample_env "topic1" raw_model CNone warm =
    (Return payload, logged [EvModelDumps raw_model] warm) /\
  dumps_value sample_env "topic1" raw_model CNone warm =
    (Return payload, logged [EvModelDumps raw_model] warm).
Proof.
  apply (model_encode_fallback sample_env 0 CNone (CName "json") 1
           [Call_get_serializer (CName "avro")] "topic1" Raw
           payload None CNone).
  - reflexivity.
  - intros n Hn. injection Hn as <-. reflexivity.
Defined.

(** ** Decoding a key with the Registry default *)

(** C3, as the code has it: for a present key and a type that declares no
    serializer, [loads_key] takes the Registry's default key serializer
    as the name; for a type that declares one, it takes the declared name
    whatever the Registry's default is.  When the name so chosen does not
    resolve to an external serializer, the key is decoded by the codec
    table under that name and [loads_key] returns the type constructed
    from the decoded value; the only outside calls are the codec table's
    decoder, called with that name, and the constructor. *)
Theorem loads_key_codec_path
    (E : Env) (st : State) (t : ModelType) (data v : Val) :
  data <> VNone ->
  model_init E t v None = None ->
  (truthy (declared_serializer t) = false ->
   unresolvable (self st) (key_serializer (self st)) ->
   loads E (key_serializer (self st)) data = Return v ->
   loads_key E (Some t) data st =
     (Return (VModel t v None),
      logged [EvCodecLoads (key_serializer (self st)) data;
              EvModelNew t v None] st)) /\
  (truthy (declared_serializer t) = true ->
   unresolvable (self st) (declared_serializer t) ->
   loads E (declared_serializer t) data = Return v ->
   loads_key E (Some t) data st =
     (Return (VModel t v None),
      logged [EvCodecLoads (declared_serializer t) data;
              EvModelNew t v None] st)).
Proof.
  intros Hd Hi. split; intros Ht Hmiss Hl.
  - apply (loads_key_decodes E t data st (Return (VModel t v None))); [exact Hd|].
    unfold py_or. rewrite Ht.
    apply (codec_decodes E st _ data t None
             (mkExn KeyError (repr (key_serializer (self st)))) st v);
      [now apply get_serializer_miss | reflexivity | exact Hl | exact Hi].
  - apply (loads_key_decodes E t data st (Return (VModel t v None))); [exact Hd|].
    unfold py_or. rewrite Ht.
    apply (codec_decodes E st _ data t None
             (mkExn KeyError (repr (declared_serializer t))) st v);
      [now apply get_serializer_miss | reflexivity | exact Hl | exact Hi].
Qed.

(** With a codec table that knows ["raw"] (bytes stay bytes) and ["text"]
    (bytes become a string): on [Registry(key_serializer="text")] a type
    that declares nothing gets its key decoded as text, the default; on
    [Registry(key_serializer="raw")] a type that declares ["text"] gets
    its key decoded as text, the declared name, not as raw bytes. *)
Lemma loads_key_codec_path_witness :
  loads_key text_env (Some Plain) payload text_keys =
    (Return (VModel Plain (VStr "x") None),
     logged [EvCodecLoads (CName "text") payload;
             EvModelNew Plain (VStr "x") None] text_keys) /\
  loads_key text_env (Some Text) payload raw_keys =
    (Return (VModel Text (VStr "x") None),
     logged [EvCodecLoads (CName "text") payload;
             EvModelNew Text (VStr "x") None] raw_keys) /\
  loads text_env (key_serializer (self raw_keys)) payload = Return payload.
Proof.
  assert (Hd : payload <> VNone) by discriminate.
  split; [|split; [|reflexivity]].
  - destruct (loads_key_codec_path text_env text_keys Plain payload (VStr "x")
                Hd eq_refl) as [Hdefault _].
    apply Hdefault; [reflexivity | split; reflexivity | reflexivity].
  - destruct (loads_key_codec_path text_env raw_keys Text payload (VStr "x")
                Hd eq_refl) as [_ Hdeclared].
    apply Hdeclared; [reflexivity | split; reflexivity | reflexivity].
Defined.

(** C3 as stated fails when the Registry default is an external
    serializer's name: with [Registry(key_serializer="avro")] the key of a
    type without a declared serializer is decoded by the cached external
    serializer; the codec table is never called (and does not know the
    name). *)
Lemma loads_key_default_counterexample :
  truthy (declared_serializer Plain) = false /\
  ~ wraps_codec_value sample_env Plain payload avro_keys /\
  exists ser st',
    loads_key sample_env (Some Plain) payload avro_keys =
      (Return (VModel Plain (VDict [("avro", payload)]) None), st') /\
    ser_loads sample_env ser payload = Return (VDict [("avro", payload)]) /\
    _override (self st') !! "avro" = Some ser /\
    codec_calls (trace st') = [].
Proof.
  split; [reflexivity|split].
  - intros (v & Hl & _). vm_compute in Hl. discriminate.
  - eexists _, _. split; [vm_compute; reflexivity|].
    split; [reflexivity|]. split; reflexivity.
Qed.

(** ** Lookup misses *)

(** C9, as the code has it.  Provided importing and constructing a listed
    class does not itself raise [KeyError], a resolution raises [KeyError]
    exactly when the name is not a string or is a string neither cached
    nor listed.  Such a miss leaves the state, hence the cache, as it was.
    On a miss the decoders call the codec table's decoder, the encoders
    call the codec table's encoder for a value that is not a model, and
    the model's own [dumps()] for a model. *)
Theorem resolution_miss
    (E : Env) (st : State) (name : CodecArg) :
  ctor_no_KeyError E (self st) ->
  ((exists e st', _get_serializer E name st = (Raise e, st') /\
                  is_KeyError e = true)
   <-> unresolvable (self st) name) /\
  (unresolvable (self st) name ->
   _get_serializer E name st = (Raise (mkExn KeyError (repr name)), st) /\
   (forall t data,
       data <> VNone ->
       py_or (declared_serializer t) (key_serializer (self st)) = name ->
       loads_key E (Some t) data st =
         reraise_as KeyDecodeError
           (obj <- call_loads E name data ;; typ_call E t obj None) st) /\
   (forall t k data request,
       data <> VNone ->
       py_or (declared_serializer t) (value_serializer (self st)) = name ->
       loads_value E (Some t) k {| value := data |} request st =
         reraise_as ValueDecodeError
           (obj <- call_loads E name data ;; typ_call E t obj (Some request)) st) /\
   (forall topic v,
       as_model v = None -> truthy name = true ->
       dumps_key E topic v name st =
         (dumps E name v, logged [EvCodecDumps name v] st) /\
       dumps_value E topic v name st =
         (dumps E name v, logged [EvCodecDumps name v] st)) /\
   (forall topic t data req override,
       declared_serializer t = name -> truthy name = true ->
       let m := VModel t data req in
       dumps_key E topic m override st =
         (model_dumps E m, logged [EvModelDumps m] st) /\
       dumps_value E topic m override st =
         (model_dumps E m, logged [EvModelDumps m] st))).
Proof.
  intros Hctor. split.
  - split; [|intros Hm; eexists _, _; split;
              [now apply get_serializer_miss|reflexivity]].
    intros (e & st' & Hg & He).
    destruct name as [|n|c]; simpl; try exact I.
    unfold _get_serializer, bind, get_self in Hg. simpl in Hg.
    destruct (_override (self st) !! n) as [ser|] eqn:Hc; [discriminate|].
    split; [reflexivity|].
    destruct (override_classes (self st) !! n) as [path|] eqn:Ht;
      [|reflexivity].
    exfalso. specialize (Hctor n path Ht).
    unfold construct, bind, lift in Hg.
    destruct (symbol_by_name E path) as [cls|e1].
    + destruct (ser_init E cls) as [e1|]; simpl in Hg; [|discriminate].
      unfold raise in Hg. injection Hg as <- <-. congruence.
    + injection Hg as <- <-. congruence.
  - intros Hm. pose proof (get_serializer_miss E st name Hm) as Hg.
    split; [exact Hg|]. split; [|split; [|split]].
    + intros t data Hd Hs. rewrite (loads_key_present E t data st Hd).
      cbv zeta. rewrite Hs. apply reraise_bind_ext.
      now apply (with_serializer_miss E _ _ _ _ _ _ Hg).
    + intros t k data request Hd Hs.
      rewrite (loads_value_present E t k data request st Hd).
      cbv zeta. rewrite Hs. apply reraise_bind_ext.
      now apply (with_serializer_miss E _ _ _ _ _ _ Hg).
    + intros topic v Hv Ht. unfold dumps_key, dumps_value.
      rewrite Hv, Ht.
      now rewrite !(with_serializer_miss E _ _ _ _ _ _ Hg eq_refl).
    + intros topic t data req override Hs Ht. subst name.
      now apply encode_model_miss.
Qed.

(** ["json"] on [Registry()]: a string that is neither cached nor
    listed. *)
Lemma resolution_miss_witness :
  _get_serializer sample_env (CName "json") fresh =
    (Raise (mkExn KeyError "'json'"), fresh).
Proof.
  assert (Hctor : ctor_no_KeyError sample_env (self fresh)).
  { intros n path _. exact I. }
  destruct (resolution_miss sample_env fresh (CName "json") Hctor)
    as [_ Hmiss].
  apply Hmiss. split; reflexivity.
Defined.

(** C9 as stated fails in two places.  A model instance that declares
    ["raw"] misses, yet [dumps_key] and [dumps_value] return what the
    model's own [dumps()] returns and never call the codec table, whose
    encoder would have returned something else.  And a listed name whose
    class raises [KeyError] from its constructor makes the resolution
    raise [KeyError] although the name is a string that is listed. *)
Lemma resolution_miss_counterexample :
  (unresolvable (self fresh) (CName "raw") /\
   dumps_key own_encoding_env "topic1" raw_model CNone fresh =
     (Return (VBytes (bytes_of "own")), logged [EvModelDumps raw_model] fresh) /\
   dumps_value own_encoding_env "topic1" raw_model CNone fresh =
     (Return (VBytes (bytes_of "own")), logged [EvModelDumps raw_model] fresh) /\
   dumps own_encoding_env (CName "raw") raw_model = Return raw_model /\
   fst (dumps_key own_encoding_env "topic1" raw_model CNone fresh)
     <> dumps own_encoding_env (CName "raw") raw_model /\
   fst (dumps_value own_encoding_env "topic1" raw_model CNone fresh)
     <> dumps own_encoding_env (CName "raw") raw_model /\
   codec_calls (trace (logged [EvModelDumps raw_model] fresh)) = []) /\
  (override_classes (self fresh) !! "avro" =
     Some "faust.serializers.avro.faust:AvroSerializer" /\
   ~ unresolvable (self fresh) (CName "avro") /\
   _get_serializer unconfigured_env (CName "avro") fresh =
     (Raise missing_setting, fresh) /\
   is_KeyError missing_setting = true).
Proof.
  split.
  - split; [split; reflexivity|].
    repeat split; discriminate.
  - split; [reflexivity|]. split.
    + intros [_ Ht]. vm_compute in Ht. discriminate.
    + split; reflexivity.
Qed.

(** ** Error normalization *)




(** ** The value decoder against the key decoder *)

(** C10, as the code has it: for a present value and a present type,
    [loads_value] runs the decode path of [loads_key] on [message.value]
    (with the Registry's default value serializer, the request attached,
    and [ValueDecodeError] as the wrapper); but it has no guard for an
    absent type: where [loads_key] returns the raw key unchanged,
    [loads_value] fails on [typ._options] and raises [ValueDecodeError],
    leaving the state as it was. *)
Theorem loads_value_shape
    (E : Env) (st : State) (k data : Val) (request : Request) :
  data <> VNone ->
  loads_value E None k {| value := data |} request st =
    (Raise (mkExn ValueDecodeError
              "'NoneType' object has no attribute '_options'"), st) /\
  loads_key E None data st = (Return data, st) /\
  (forall t r st',
      decodes E st (py_or (declared_serializer t) (value_serializer (self st)))
        data t (Some request) r st' ->
      loads_value E (Some t) k {| value := data |} request st =
        (normalized ValueDecodeError r, st')) /\
  (forall t r st',
      decodes E st (py_or (declared_serializer t) (key_serializer (self st)))
        data t None r st' ->
      loads_key E (Some t) data st = (normalized KeyDecodeError r, st')).
Proof.
  intros Hd. split; [|split; [|split]].
  - destruct data; try (now destruct Hd); reflexivity.
  - now destruct data.
  - intros t r st'. now apply loads_value_decodes.
  - intros t r st'. now apply loads_key_decodes.
Qed.

(** [Registry()] given [b"x"]: without a type, and with the type that
    declares ["raw"]. *)
Lemma loads_value_shape_witness :
  loads_value sample_env None VNone {| value := payload |} 7 fresh =
    (Raise (mkExn ValueDecodeError
              "'NoneType' object has no attribute '_options'"), fresh) /\
  loads_key sample_env None payload fresh = (Return payload, fresh) /\
  loads_value sample_env (Some Raw) VNone {| value := payload |} 7 fresh =
    (Return (VModel Raw payload (Some 7)),
     logged [EvCodecLoads (CName "raw") payload;
             EvModelNew Raw payload (Some 7)] fresh) /\
  loads_key sample_env (Some Raw) payload fresh =
    (Return (VModel Raw payload None),
     logged [EvCodecLoads (CName "raw") payload;
             EvModelNew Raw payload None] fresh).
Proof.
  assert (Hd : payload <> VNone) by discriminate.
  destruct (loads_value_shape sample_env fresh VNone payload 7 Hd)
    as (Hv & Hk & Hvt & Hkt).
  split; [exact Hv|]. split; [exact Hk|]. split.
  - apply (Hvt Raw (Return (VModel Raw payload (Some 7)))).
    apply (codec_decodes sample_env fresh (CName "raw") payload Raw (Some 7)
             (mkExn KeyError "'raw'") fresh payload); reflexivity.
  - apply (Hkt Raw (Return (VModel Raw payload None))).
    apply (codec_decodes sample_env fresh (CName "raw") payload Raw None
             (mkExn KeyError "'raw'") fresh payload); reflexivity.
Defined.

(** C10 as stated fails: with an absent type and a present value
    [loads_value] does not return the raw value. *)
Lemma loads_value_shape_counterexample :
  fst (loads_value sample_env None VNone {| value := payload |} 7 fresh)
    <> Return payload /\
  fst (loads_key sample_env None payload fresh) = Return payload.
Proof.
  split; [discriminate|reflexivity].
Qed.

(** ** Round trip *)

Lemma sample_raw_roundtrip (E : Env) :
  loads E = sample_codec -> dumps E = sample_codec ->
  codec_roundtrip E (CName "raw").
Proof.
  intros Hl Hd v b. rewrite Hl, Hd. simpl. now intros [= <-].
Qed.

(** C4, as the code has it: for a model type that declares a serializer
    [s] which does not resolve to an external serializer, and whose own
    [dumps()] is the codec table's [dumps(s, x)], the codec law makes
    encoding [t(x)] and decoding the result give [t(x, req=request)],
    whenever the encoding succeeds with present bytes and the constructor
    accepts [x]. *)
Theorem model_value_roundtrip
    (E : Env) (st : State) (topic : string) (t : ModelType) (x k b : Val)
    (request : Request) :
  let s := declared_serializer t in
  truthy s = true ->
  unresolvable (self st) s ->
  codec_roundtrip E s ->
  model_dumps E (VModel t x None) = dumps E s x ->
  dumps E s x = Return b ->
  b <> VNone ->
  model_init E t x (Some request) = None ->
  roundtrips E st topic t x k request.
Proof.
  intros s Ht Hm Hlaw Hown Hb Hnone Hi.
  destruct (encode_model_miss E topic t x None CNone st Ht Hm) as [_ Hdv].
  cbv zeta in Hdv. rewrite Hown in Hdv. fold s in Hdv. rewrite Hb in Hdv.
  exists b, (logged [EvModelDumps (VModel t x None)] st).
  eexists. split; [exact Hdv|].
  rewrite (loads_value_decodes E t k b request _
             (Return (VModel t x (Some request)))
             (logged [EvCodecLoads s b; EvModelNew t x (Some request)]
                (logged [EvModelDumps (VModel t x None)] st)) Hnone);
    [reflexivity|].
  assert (Hs : py_or (declared_serializer t)
                 (value_serializer
                    (self (logged [EvModelDumps (VModel t x None)] st))) = s).
  { unfold py_or. fold s. now rewrite Ht. }
  rewrite Hs.
  apply (codec_decodes E _ s b t (Some request) (mkExn KeyError (repr s))
           (logged [EvModelDumps (VModel t x None)] st) x).
  - apply get_serializer_miss. exact Hm.
  - reflexivity.
  - now apply Hlaw.
  - exact Hi.
Qed.

(** A model that declares ["raw"], on [Registry()]. *)
Lemma model_value_roundtrip_witness :
  roundtrips sample_env fresh "topic1" Raw payload VNone 7.
Proof.
  apply (model_value_roundtrip sample_env fresh "topic1" Raw payload VNone
           payload 7).
  - reflexivity.
  - split; reflexivity.
  - now apply sample_raw_roundtrip.
  - reflexivity.
  - reflexivity.
  - discriminate.
  - reflexivity.
Defined.

(** C4 as stated fails in two ways.  A model type that declares no
    serializer is not encoded at all ([dumps_value] returns the instance
    itself), so decoding with the Registry default wraps the instance
    instead of [x].  And a model type whose own [dumps()] is not the codec
    table's encoding is decoded to something else, although the codec
    table satisfies the law. *)
Lemma model_value_roundtrip_counterexample :
  (codec_roundtrip sample_env (CName "raw") /\
   py_or (declared_serializer Plain) (value_serializer (self raw_values))
     = CName "raw" /\
   dumps_value sample_env "topic1" plain_model CNone raw_values =
     (Return plain_model, raw_values) /\
   fst (loads_value sample_env (Some Plain) VNone {| value := plain_model |}
          7 raw_values) = Return (VModel Plain plain_model (Some 7)) /\
   ~ roundtrips sample_env raw_values "topic1" Plain payload VNone 7) /\
  (codec_roundtrip own_encoding_env (CName "raw") /\
   ~ roundtrips own_encoding_env fresh "topic1" Raw payload VNone 7).
Proof.
  split.
  - split; [now apply sample_raw_roundtrip|]. repeat split.
    intros (b & st1 & st2 & Hd & Hl).
    vm_compute in Hd. injection Hd as <- <-.
    vm_compute in Hl. discriminate.
  - split; [now apply sample_raw_roundtrip|].
    intros (b & st1 & st2 & Hd & Hl).
    vm_compute in Hd. injection Hd as <- <-.
    vm_compute in Hl. discriminate.
Qed.

(** * Further properties *)

(** ** What no history of calls changes *)

(** X1: whatever is called on a Registry, and whether the calls return or
    raise, its identity, its table of external classes and its two
    default serializers stay what they were. *)
Theorem configuration_is_immutable
    (E : Env) (cs : list Call) (st : State) :
  registry_id (self (run E cs st)) = registry_id (self st) /\
  override_classes (self (run E cs st)) = override_classes (self st) /\
  key_serializer (self (run E cs st)) = key_serializer (self st) /\
  value_serializer (self (run E cs st)) = value_serializer (self st).
Proof.
  apply (run_invariant E
           (fun st' =>
              registry_id (self st') = registry_id (self st) /\
              override_classes (self st') = override_classes (self st) /\
              key_serializer (self st') = key_serializer (self st) /\
              value_serializer (self st') = value_serializer (self st)));
    [|repeat split].
  intros st1 st2 Hs (Hid & Ht & Hk & Hv).
  destruct (step_config _ _ Hs) as (Hid' & Ht' & Hk' & Hv').
  repeat split; congruence.
Qed.

(** X2: the cache only grows: an entry, once there, is never evicted and
    never replaced by another instance, whatever is called afterwards. *)
Theorem cache_only_grows
    (E : Env) (cs : list Call) (st : State) :
  _override (self st) ⊆ _override (self (run E cs st)).
Proof.
  apply map_subseteq_spec. intros n ser Hl.
  now apply run_lookup_stable.
Qed.

Lemma constructions_app tr1 tr2 :
  constructions (tr1 ++ tr2) = constructions tr1 + constructions tr2.
Proof.
  induction tr1 as [|ev tr1 IH]; simpl; [reflexivity|].
  destruct ev; simpl; now rewrite IH.
Qed.

(** When only [a] ever had instances, they are all the constructions. *)
Lemma constructions_single a tr :
  (forall n, n <> a -> created n tr = []) ->
  constructions tr = length (created a tr).
Proof.
  induction tr as [|ev tr IH]; intros Hn; [reflexivity|].
  destruct ev; simpl in *; try (apply IH; exact Hn).
  destruct (decide (name = a)) as [->|Hne].
  - simpl. f_equal. apply IH. intros n Hna. specialize (Hn n Hna).
    destruct (decide (a = n)); [congruence|exact Hn].
  - exfalso. specialize (Hn name Hne).
    destruct (decide (name = name)); [discriminate|congruence].
Qed.

(** X3: with [override_classes] as the class defines it, a Registry never
    caches anything under a name other than ["avro"], and over its whole
    life constructs at most one external serializer. *)
Theorem at_most_one_external_serializer
    (E : Env) (rid : nat) (ks vs : CodecArg) (next : nat) (cs : list Call) :
  dom (_override (self (run E cs (init_state rid ks vs next))))
    ⊆ ({[ "avro" ]} : gset string) /\
  constructions (trace (run E cs (init_state rid ks vs next))) <= 1.
Proof.
  set (st := run E cs (init_state rid ks vs next)).
  assert (Hso : cache_sound (self st))
    by apply run_cache_sound, init_cache_sound.
  assert (Hco : coherent st) by apply run_coherent, init_coherent.
  assert (Htab : override_classes (self st) = default_override_classes)
    by apply run_override_classes.
  assert (Honly : forall n, is_Some (_override (self st) !! n) -> n = "avro").
  { intros n Hn. apply Hso in Hn. rewrite Htab in Hn.
    unfold default_override_classes in Hn.
    destruct (decide (n = "avro")) as [->|Hne]; [reflexivity|].
    rewrite lookup_singleton_ne in Hn by congruence.
    now destruct Hn. }
  split.
  - intros n Hn. apply elem_of_dom in Hn. apply elem_of_singleton.
    now apply Honly.
  - rewrite (constructions_single "avro").
    + now apply coherent_at_most_one.
    + intros n Hne. rewrite (Hco n).
      destruct (_override (self st) !! n) as [ser|] eqn:Hl; [|reflexivity].
      destruct Hne. apply Honly. rewrite Hl. now eexists.
Qed.

(** ** Allocation *)

Lemma step_well_allocated rid lo st st' :
  step st st' -> well_allocated rid lo st -> well_allocated rid lo st'.
Proof.
  intros [Hs Hn Hc | name path ser Hm Ht Hid Hreg Hs Hn Hc]
         (Hrid & Hlo & Hown & Hinj).
  - unfold well_allocated. rewrite Hs, Hn. repeat split; auto.
    + now apply (Hown n s).
    + now apply (Hown n s).
    + now apply (Hown n s).
  - assert (Hnew : forall n s,
               _override (self st') !! n = Some s ->
               (n = name /\ s = ser) \/
               (n <> name /\ _override (self st) !! n = Some s)).
    { intros n s. rewrite Hs. simpl.
      destruct (decide (name = n)) as [->|Hne].
      - rewrite lookup_insert_eq. intros [= <-]. now left.
      - rewrite lookup_insert_ne by exact Hne. intros Hl. right.
        split; [congruence|exact Hl]. }
    split; [rewrite Hs; exact Hrid|].
    split; [lia|]. split.
    + intros n s Hl. destruct (Hnew n s Hl) as [[-> ->]|[_ Hold]].
      * split; [congruence|lia].
      * destruct (Hown n s Hold) as (Hr & Hb). split; [exact Hr|lia].
    + intros n1 n2 s1 s2 H1 H2 Heq.
      destruct (Hnew n1 s1 H1) as [[-> ->]|[Hne1 Hold1]];
        destruct (Hnew n2 s2 H2) as [[-> ->]|[Hne2 Hold2]].
      * reflexivity.
      * destruct (Hown n2 s2 Hold2) as (_ & Hb). lia.
      * destruct (Hown n1 s1 Hold1) as (_ & Hb). lia.
      * now apply (Hinj n1 n2 s1 s2).
Qed.

(** X4: starting from an empty cache, every instance the cache ever holds
    was built with this very Registry, received an identity that was
    unused before, and is held under one name only: two different names
    never alias one instance. *)
Theorem cached_instances_are_fresh
    (E : Env) (st0 : State) (cs : list Call) (n1 n2 : string) (s1 s2 : Ser) :
  _override (self st0) = ∅ ->
  _override (self (run E cs st0)) !! n1 = Some s1 ->
  _override (self (run E cs st0)) !! n2 = Some s2 ->
  ser_registry s1 = registry_id (self st0) /\
  next_id st0 <= ser_id s1 < next_id (run E cs st0) /\
  (n1 <> n2 -> ser_id s1 <> ser_id s2).
Proof.
  intros Hempty H1 H2.
  assert (Hwa : well_allocated (registry_id (self st0)) (next_id st0)
                  (run E cs st0)).
  { apply (run_invariant E
             (well_allocated (registry_id (self st0)) (next_id st0))).
    - intros sa sb Hs. now apply step_well_allocated.
    - split; [reflexivity|]. split; [lia|]. split.
      + intros n s. rewrite Hempty, lookup_empty. discriminate.
      + intros n n' s s'. rewrite Hempty, lookup_empty. discriminate. }
  destruct Hwa as (_ & _ & Hown & Hinj).
  destruct (Hown n1 s1 H1) as (Hr & Hb).
  split; [exact Hr|]. split; [exact Hb|].
  intros Hne Heq. apply Hne. now apply (Hinj n1 n2 s1 s2).
Qed.

(** A subclass that lists two classes, after both names were resolved. *)
Lemma cached_instances_are_fresh_witness :
  _override
    (self (run sample_env [Call_get_serializer (CName "avro");
                           Call_get_serializer (CName "proto")] two_classes))
    !! "avro" = Some first_ser /\
  ser_registry first_ser = 0 /\
  1 <= ser_id first_ser < 3 /\
  ser_id first_ser <> 2.
Proof.
  assert (H1 : _override
                 (self (run sample_env [Call_get_serializer (CName "avro");
                                        Call_get_serializer (CName "proto")]
                          two_classes)) !! "avro" = Some first_ser)
    by reflexivity.
  split; [exact H1|].
  destruct (cached_instances_are_fresh sample_env two_classes
              [Call_get_serializer (CName "avro");
               Call_get_serializer (CName "proto")]
              "avro" "proto" first_ser
              {| ser_id := 2; ser_class := "pkg.proto:ProtoSerializer";
                 ser_registry := 0 |})
    as (Hr & Hb & Hne); try reflexivity.
  split; [exact Hr|]. split; [exact Hb|].
  apply Hne. discriminate.
Defined.

(** ** Failures while constructing an external serializer *)

Section Encoders.

Context (E : Env).

Lemma truthy_name n : n <> "" -> truthy (CName n) = true.
Proof. destruct n; [congruence|reflexivity]. Qed.

Lemma logged_cons ev evs st :
  logged (ev :: evs) st = logged evs (logged [ev] st).
Proof. unfold logged. simpl. now rewrite <- app_assoc. Qed.

(** Both encoders, once a serializer is established. *)
Lemma dumps_key_established topic obj ov st :
  truthy (established obj ov) = true ->
  dumps_key E topic obj ov st =
    with_serializer E (established obj ov)
      (match as_model obj with
       | Some _ => call_model_dumps E obj
       | None => call_dumps E (established obj ov) obj
       end)
      (fun ser => call_ser_dumps_key E ser topic obj) st.
Proof.
  unfold dumps_key, established.
  destruct (as_model obj); intros ->; reflexivity.
Qed.

Lemma dumps_value_established topic obj ov st :
  truthy (established obj ov) = true ->
  dumps_value E topic obj ov st =
    with_serializer E (established obj ov)
      (match as_model obj with
       | Some _ => call_model_dumps E obj
       | None => call_dumps E (established obj ov) obj
       end)
      (fun ser => call_ser_dumps_value E ser topic obj) st.
Proof.
  unfold dumps_value, established.
  destruct (as_model obj); intros ->; reflexivity.
Qed.

Lemma get_serializer_construct_fails st n path e :
  _override (self st) !! n = None ->
  override_classes (self st) !! n = Some path ->
  construct_fails E path e ->
  _get_serializer E (CName n) st = (Raise e, st).
Proof.
  intros Hc Ht Hf.
  unfold _get_serializer, bind, get_self, construct, bind, lift. simpl.
  rewrite Hc, Ht.
  destruct Hf as [Hs | (cls & Hs & Hi)]; rewrite Hs; [reflexivity|].
  now rewrite Hi.
Qed.

(** The encoders when the resolution returned [ser]. *)
Lemma encoders_hit topic obj ov st ser st1 :
  truthy (established obj ov) = true ->
  _get_serializer E (established obj ov) st = (Return ser, st1) ->
  dumps_key E topic obj ov st =
    (ser_dumps_key E ser topic obj, logged [EvSerDumpsKey ser topic obj] st1) /\
  dumps_value E topic obj ov st =
    (ser_dumps_value E ser topic obj,
     logged [EvSerDumpsValue ser topic obj] st1).
Proof.
  intros Ht Hg.
  rewrite (dumps_key_established _ _ _ _ Ht),
          (dumps_value_established _ _ _ _ Ht).
  now rewrite !(with_serializer_hit E _ _ _ _ _ _ Hg).
Qed.

End Encoders.

(** X5: when importing or constructing the listed class fails, nothing is
    cached and the state is left as it was, so the next resolution tries
    again.  If the failure is not a [KeyError], both encoders let it out
    unchanged, while both decoders pass it through [except Exception]:
    a failure that derives from [Exception] comes out as [KeyDecodeError]
    (respectively [ValueDecodeError]) carrying its [str], one that derives
    from [BaseException] only comes out unchanged. *)
Theorem failed_construction_is_not_cached
    (E : Env) (st : State) (n path : string) (e : Exn) :
  _override (self st) !! n = None ->
  override_classes (self st) !! n = Some path ->
  construct_fails E path e ->
  is_KeyError e = false ->
  _get_serializer E (CName n) st = (Raise e, st) /\
  (forall topic obj ov,
      established obj ov = CName n -> n <> "" ->
      dumps_key E topic obj ov st = (Raise e, st) /\
      dumps_value E topic obj ov st = (Raise e, st)) /\
  (forall t data,
      data <> VNone ->
      py_or (declared_serializer t) (key_serializer (self st)) = CName n ->
      loads_key E (Some t) data st =
        (Raise (if is_Exception e then mkExn KeyDecodeError (exc_str e) else e),
         st)) /\
  (forall t k data request,
      data <> VNone ->
      py_or (declared_serializer t) (value_serializer (self st)) = CName n ->
      loads_value E (Some t) k {| value := data |} request st =
        (Raise (if is_Exception e then mkExn ValueDecodeError (exc_str e) else e),
         st)).
Proof.
  intros Hc Ht Hf He.
  pose proof (get_serializer_construct_fails E st n path e Hc Ht Hf) as Hg.
  split; [exact Hg|]. split; [|split].
  - intros topic obj ov Hs Hn.
    assert (Htr : truthy (established obj ov) = true)
      by (rewrite Hs; now apply truthy_name).
    rewrite (dumps_key_established E _ _ _ _ Htr),
            (dumps_value_established E _ _ _ _ Htr), Hs.
    now rewrite !(with_serializer_fail E _ _ _ _ _ _ Hg He).
  - intros t data Hd Hs.
    apply (loads_key_decodes E t data st (Raise e) st Hd).
    rewrite Hs. now apply resolution_fails.
  - intros t k data request Hd Hs.
    apply (loads_value_decodes E t k data request st (Raise e) st Hd).
    rewrite Hs. now apply resolution_fails.
Qed.

(** The module of the external serializer cannot be imported. *)
Lemma failed_construction_is_not_cached_witness :
  _get_serializer missing_module_env (CName "avro") fresh =
    (Raise no_module, fresh) /\
  dumps_value missing_module_env "topic1" payload (CName "avro") fresh =
    (Raise no_module, fresh) /\
  loads_value missing_module_env (Some Avro) VNone {| value := payload |} 7
    fresh =
    (Raise (mkExn ValueDecodeError "No module named 'faust.serializers.avro'"),
     fresh).
Proof.
  assert (Hf : construct_fails missing_module_env
                 "faust.serializers.avro.faust:AvroSerializer" no_module)
    by (left; reflexivity).
  destruct (failed_construction_is_not_cached missing_module_env fresh "avro"
              "faust.serializers.avro.faust:AvroSerializer" no_module
              eq_refl eq_refl Hf eq_refl)
    as (Hg & Henc & _ & Hval).
  split; [exact Hg|]. split.
  - apply (Henc "topic1" payload (CName "avro")); [reflexivity|discriminate].
  - apply (Hval Avro VNone payload 7); [discriminate|reflexivity].
Defined.

(** X6: a [KeyError] that escapes while the listed class is imported or
    constructed is taken for a lookup miss: nothing is cached, the error
    is not reported, and the callers silently use the stateless path (the
    codec table, or the model's own [dumps()] for a model instance). *)
Theorem constructor_KeyError_is_swallowed
    (E : Env) (st : State) (n path : string) (e : Exn) :
  _override (self st) !! n = None ->
  override_classes (self st) !! n = Some path ->
  construct_fails E path e ->
  is_KeyError e = true ->
  n <> "" ->
  (forall topic obj,
      as_model obj = None ->
      dumps_key E topic obj (CName n) st =
        (dumps E (CName n) obj, logged [EvCodecDumps (CName n) obj] st) /\
      dumps_value E topic obj (CName n) st =
        (dumps E (CName n) obj, logged [EvCodecDumps (CName n) obj] st)) /\
  (forall topic t data req ov,
      declared_serializer t = CName n ->
      dumps_key E topic (VModel t data req) ov st =
        (model_dumps E (VModel t data req),
         logged [EvModelDumps (VModel t data req)] st) /\
      dumps_value E topic (VModel t data req) ov st =
        (model_dumps E (VModel t data req),
         logged [EvModelDumps (VModel t data req)] st)) /\
  (forall t data v,
      data <> VNone ->
      py_or (declared_serializer t) (key_serializer (self st)) = CName n ->
      loads E (CName n) data = Return v ->
      model_init E t v None = None ->
      loads_key E (Some t) data st =
        (Return (VModel t v None),
         logged [EvCodecLoads (CName n) data; EvModelNew t v None] st)).
Proof.
  intros Hc Ht Hf He Hn.
  pose proof (get_serializer_construct_fails E st n path e Hc Ht Hf) as Hg.
  pose proof (truthy_name n Hn) as Htr.
  split; [|split].
  - intros topic obj Hm.
    assert (Hs : established obj (CName n) = CName n)
      by (unfold established; now rewrite Hm).
    rewrite (dumps_key_established E topic obj (CName n) st),
            (dumps_value_established E topic obj (CName n) st)
      by (now rewrite Hs).
    rewrite Hs, Hm.
    now rewrite !(with_serializer_miss E _ _ _ _ _ _ Hg He).
  - intros topic t data req ov Hs.
    assert (Hs' : established (VModel t data req) ov = CName n) by exact Hs.
    rewrite (dumps_key_established E topic (VModel t data req) ov st),
            (dumps_value_established E topic (VModel t data req) ov st)
      by (now rewrite Hs').
    rewrite Hs'. simpl.
    now rewrite !(with_serializer_miss E _ _ _ _ _ _ Hg He).
  - intros t data v Hd Hs Hl Hi.
    apply (loads_key_decodes E t data st (Return (VModel t v None)) _ Hd).
    rewrite Hs.
    now apply (codec_decodes E st (CName n) data t None e st v).
Qed.

(** The constructor looks up a setting that is missing; the value is
    handed to the codec table, which does not know ["avro"]. *)
Lemma constructor_KeyError_is_swallowed_witness :
  dumps_value unconfigured_env "topic1" payload (CName "avro") fresh =
    (Raise (mkExn KeyError "'avro'"),
     logged [EvCodecDumps (CName "avro") payload] fresh).
Proof.
  assert (Hf : construct_fails unconfigured_env
                 "faust.serializers.avro.faust:AvroSerializer" missing_setting)
    by (right; now exists "faust.serializers.avro.faust:AvroSerializer").
  assert (Hn : "avro" <> "") by discriminate.
  destruct (constructor_KeyError_is_swallowed unconfigured_env fresh "avro"
              "faust.serializers.avro.faust:AvroSerializer" missing_setting
              eq_refl eq_refl Hf eq_refl Hn)
    as (Henc & _).
  now apply (Henc "topic1" payload).
Defined.

(** ** One external serializer for all four operations *)

(** X7: when the key and then the value of a message are encoded under a
    listed name that is not cached yet, the instance is constructed once,
    by the first call, and the second call reuses it: the outside calls
    are the construction, [ser.dumps_key(topic, key)] and
    [ser.dumps_value(topic, value)] on that one instance, for models and
    other values alike; neither the codec table nor a model's own
    [dumps()] is called. *)
Theorem message_encoded_by_one_instance
    (E : Env) (st : State) (n path cls topic : string)
    (k v : Val) (ovk ovv : CodecArg) :
  let ser := {| ser_id := next_id st; ser_class := cls;
                ser_registry := registry_id (self st) |} in
  let st1 := {| self := cache_insert n ser (self st);
                next_id := S (next_id st);
                trace := trace st ++ [EvNew n ser] |} in
  _override (self st) !! n = None ->
  override_classes (self st) !! n = Some path ->
  symbol_by_name E path = Return cls ->
  ser_init E cls = None ->
  n <> "" ->
  established k ovk = CName n ->
  established v ovv = CName n ->
  dumps_key E topic k ovk st =
    (ser_dumps_key E ser topic k, logged [EvSerDumpsKey ser topic k] st1) /\
  dumps_value E topic v ovv (logged [EvSerDumpsKey ser topic k] st1) =
    (ser_dumps_value E ser topic v,
     logged [EvSerDumpsKey ser topic k; EvSerDumpsValue ser topic v] st1).
Proof.
  intros ser st1 Hc Ht Hs Hi Hn Hk Hv.
  pose proof (truthy_name n Hn) as Htr.
  pose proof (get_serializer_new E st n path cls Hc Ht Hs Hi) as Hnew.
  cbv zeta in Hnew. fold ser in Hnew. fold st1 in Hnew.
  split.
  - apply encoders_hit; rewrite Hk; assumption.
  - rewrite (logged_cons (EvSerDumpsKey ser topic k)
               [EvSerDumpsValue ser topic v] st1).
    apply encoders_hit; rewrite Hv; [assumption|].
    apply get_serializer_cached. apply lookup_insert_eq.
Qed.

(** A model that declares ["avro"] as key, raw bytes with the override
    ["avro"] as value, on [Registry()]. *)
Lemma message_encoded_by_one_instance_witness :
  dumps_key sample_env "topic1" (VModel Avro payload None) CNone fresh =
    (Return (VBytes (bytes_of "avro-key")),
     logged [EvSerDumpsKey first_ser "topic1" (VModel Avro payload None)] warm) /\
  dumps_value sample_env "topic1" payload (CName "avro")
    (logged [EvSerDumpsKey first_ser "topic1" (VModel Avro payload None)] warm) =
    (Return (VBytes (bytes_of "avro-value")),
     logged [EvSerDumpsKey first_ser "topic1" (VModel Avro payload None);
             EvSerDumpsValue first_ser "topic1" payload] warm).
Proof.
  assert (Hn : "avro" <> "") by discriminate.
  exact (message_encoded_by_one_instance sample_env fresh "avro"
           "faust.serializers.avro.faust:AvroSerializer"
           "faust.serializers.avro.faust:AvroSerializer" "topic1"
           (VModel Avro payload None) payload CNone (CName "avro")
           eq_refl eq_refl eq_refl eq_refl Hn eq_refl eq_refl).
Defined.

(** X8: round trip through an external serializer.  For a model type
    that declares a listed, constructible name, if the instance's decoder
    inverts its value encoder on [t(x)], then encoding [t(x)] and decoding
    the result gives [t(x, req=request)]; the instance is constructed once,
    by the encoder, and the decoder reuses it; the codec table is never
    called. *)
Theorem external_value_roundtrip
    (E : Env) (st : State) (n path cls topic : string) (t : ModelType)
    (x k b : Val) (request : Request) (ov : CodecArg) :
  let ser := {| ser_id := next_id st; ser_class := cls;
                ser_registry := registry_id (self st) |} in
  let st1 := {| self := cache_insert n ser (self st);
                next_id := S (next_id st);
                trace := trace st ++ [EvNew n ser] |} in
  let m := VModel t x None in
  _override (self st) !! n = None ->
  override_classes (self st) !! n = Some path ->
  symbol_by_name E path = Return cls ->
  ser_init E cls = None ->
  n <> "" ->
  declared_serializer t = CName n ->
  ser_dumps_value E ser topic m = Return b ->
  b <> VNone ->
  ser_loads E ser b = Return x ->
  model_init E t x (Some request) = None ->
  dumps_value E topic m ov st =
    (Return b, logged [EvSerDumpsValue ser topic m] st1) /\
  loads_value E (Some t) k {| value := b |} request
    (logged [EvSerDumpsValue ser topic m] st1) =
    (Return (VModel t x (Some request)),
     logged [EvSerDumpsValue ser topic m; EvSerLoads ser b;
             EvModelNew t x (Some request)] st1).
Proof.
  intros ser st1 m Hc Ht Hs Hi Hn Hd Henc Hb Hdec Hinit.
  pose proof (truthy_name n Hn) as Htr.
  pose proof (get_serializer_new E st n path cls Hc Ht Hs Hi) as Hnew.
  cbv zeta in Hnew. fold ser in Hnew. fold st1 in Hnew.
  split.
  - rewrite <- Henc.
    apply (encoders_hit E topic m ov st ser st1);
      unfold established, m; simpl; rewrite Hd; assumption.
  - rewrite (logged_cons (EvSerDumpsValue ser topic m)
               [EvSerLoads ser b; EvModelNew t x (Some request)] st1).
    apply (loads_value_decodes E t k b request _
             (Return (VModel t x (Some request))) _ Hb).
    unfold py_or. rewrite Hd, Htr.
    apply (external_decodes E _ (CName n) b t (Some request) ser
             (logged [EvSerDumpsValue ser topic m] st1) x);
      [|exact Hdec|exact Hinit].
    apply get_serializer_cached. apply lookup_insert_eq.
Qed.

(** In the sample environment the external decoder wraps what it is
    given, which inverts the encoder on this value. *)
Lemma external_value_roundtrip_witness :
  loads_value sample_env (Some Avro) VNone
    {| value := VBytes (bytes_of "avro-value") |} 7
    (logged [EvSerDumpsValue first_ser "topic1"
               (VModel Avro (VDict [("avro", VBytes (bytes_of "avro-value"))])
                  None)] warm) =
    (Return (VModel Avro (VDict [("avro", VBytes (bytes_of "avro-value"))])
               (Some 7)),
     logged [EvSerDumpsValue first_ser "topic1"
               (VModel Avro (VDict [("avro", VBytes (bytes_of "avro-value"))])
                  None);
             EvSerLoads first_ser (VBytes (bytes_of "avro-value"));
             EvModelNew Avro (VDict [("avro", VBytes (bytes_of "avro-value"))])
               (Some 7)] warm).
Proof.
  assert (Hn : "avro" <> "") by discriminate.
  assert (Hb : VBytes (bytes_of "avro-value") <> VNone) by discriminate.
  exact (proj2
           (external_value_roundtrip sample_env fresh "avro"
              "faust.serializers.avro.faust:AvroSerializer"
              "faust.serializers.avro.faust:AvroSerializer" "topic1" Avro
              (VDict [("avro", VBytes (bytes_of "avro-value"))]) VNone
              (VBytes (bytes_of "avro-value")) 7 CNone
              eq_refl eq_refl eq_refl eq_refl Hn eq_refl eq_refl Hb
              eq_refl eq_refl)).
Defined.

(** X9: a decode that fails after the external serializer was constructed
    does not undo the construction: the failure comes out through
    [except Exception] (as [KeyDecodeError] carrying its [str] when it
    derives from [Exception], unchanged when it derives from
    [BaseException] only), the instance stays cached, and the next decode
    under that name calls the same instance without constructing
    another. *)
Theorem failed_decode_keeps_the_instance
    (E : Env) (st : State) (n path cls : string) (t : ModelType)
    (data : Val) (e : Exn) :
  let ser := {| ser_id := next_id st; ser_class := cls;
                ser_registry := registry_id (self st) |} in
  let st1 := {| self := cache_insert n ser (self st);
                next_id := S (next_id st);
                trace := trace st ++ [EvNew n ser] |} in
  let raised :=
    if is_Exception e then mkExn KeyDecodeError (exc_str e) else e in
  _override (self st) !! n = None ->
  override_classes (self st) !! n = Some path ->
  symbol_by_name E path = Return cls ->
  ser_init E cls = None ->
  py_or (declared_serializer t) (key_serializer (self st)) = CName n ->
  data <> VNone ->
  ser_loads E ser data = Raise e ->
  loads_key E (Some t) data st =
    (Raise raised, logged [EvSerLoads ser data] st1) /\
  _override (self (logged [EvSerLoads ser data] st1)) !! n = Some ser /\
  loads_key E (Some t) data (logged [EvSerLoads ser data] st1) =
    (Raise raised, logged [EvSerLoads ser data; EvSerLoads ser data] st1).
Proof.
  intros ser st1 raised Hc Ht Hs Hi Hname Hd Hl.
  pose proof (get_serializer_new E st n path cls Hc Ht Hs Hi) as Hnew.
  cbv zeta in Hnew. fold ser in Hnew. fold st1 in Hnew.
  assert (Hcached : _override (self (logged [EvSerLoads ser data] st1)) !! n
                    = Some ser) by apply lookup_insert_eq.
  split; [|split; [exact Hcached|]].
  - apply (loads_key_decodes E t data st (Raise e) _ Hd).
    rewrite Hname. now apply external_fails.
  - rewrite (logged_cons (EvSerLoads ser data) [EvSerLoads ser data] st1).
    apply (loads_key_decodes E t data _ (Raise e) _ Hd).
    replace (key_serializer (self (logged [EvSerLoads ser data] st1)))
      with (key_serializer (self st)) by reflexivity.
    rewrite Hname.
    apply (external_fails E _ (CName n) data t None ser
             (logged [EvSerLoads ser data] st1) e); [|exact Hl].
    now apply get_serializer_cached.
Qed.

(** The schema registry rejects the key twice; one instance was built. *)
Lemma failed_decode_keeps_the_instance_witness :
  loads_key rejecting_env (Some Avro) payload fresh =
    (Raise (mkExn KeyDecodeError "unknown schema id"),
     logged [EvSerLoads first_ser payload] warm) /\
  loads_key rejecting_env (Some Avro) payload
    (logged [EvSerLoads first_ser payload] warm) =
    (Raise (mkExn KeyDecodeError "unknown schema id"),
     logged [EvSerLoads first_ser payload; EvSerLoads first_ser payload] warm).
Proof.
  assert (Hd : payload <> VNone) by discriminate.
  destruct (failed_decode_keeps_the_instance rejecting_env fresh "avro"
              "faust.serializers.avro.faust:AvroSerializer"
              "faust.serializers.avro.faust:AvroSerializer" Avro payload
              bad_schema eq_refl eq_refl eq_refl eq_refl eq_refl Hd eq_refl)
    as (H1 & _ & H2).
  split; [exact H1|exact H2].
Defined.

(** ** Nothing established, nothing encoded *)

(** X10: when no serializer is established (a model that declares none,
    whatever override is passed; or any other object with no override or
    an empty one), [dumps_value] returns the object itself and calls
    nothing, and [dumps_key] returns [None] for [None] and otherwise
    whatever [want_bytes] makes of the object, its only outside call.  In
    particular a model instance without a declared serializer is never
    encoded, and the Registry's defaults play no part. *)
Theorem nothing_established_passthrough
    (E : Env) (topic : string) (obj : Val) (ov : CodecArg) (st : State) :
  truthy (established obj ov) = false ->
  dumps_value E topic obj ov st = (Return obj, st) /\
  dumps_key E topic obj ov st =
    match obj with
    | VNone => (Return VNone, st)
    | _ => (want_bytes E obj, logged [EvWantBytes obj] st)
    end.
Proof.
  intros Hf. unfold dumps_value, dumps_key, established in *.
  destruct (as_model obj); rewrite Hf; (split; [reflexivity|]);
    now destruct obj.
Qed.

(** A model without a declared serializer, passed with an override. *)
Lemma nothing_established_passthrough_witness :
  dumps_value sample_env "topic1" plain_model (CName "raw") fresh =
    (Return plain_model, fresh) /\
  dumps_key sample_env "topic1" plain_model (CName "raw") fresh =
    (Return plain_model, logged [EvWantBytes plain_model] fresh).
Proof.
  exact (nothing_established_passthrough sample_env "topic1" plain_model
           (CName "raw") fresh eq_refl).
Defined.

(** ** Round trip of keys *)

(** X11: for a model type that declares a serializer [s] which does not
    resolve to an external serializer, and whose own [dumps()] is the
    codec table's [dumps(s, x)], the codec law makes encoding [t(x)] as a
    key and decoding the result give [t(x)] again, whenever the encoding
    succeeds with present bytes and the constructor accepts [x]. *)
Theorem model_key_roundtrip
    (E : Env) (st : State) (topic : string) (t : ModelType) (x b : Val) :
  let s := declared_serializer t in
  truthy s = true ->
  unresolvable (self st) s ->
  codec_roundtrip E s ->
  model_dumps E (VModel t x None) = dumps E s x ->
  dumps E s x = Return b ->
  b <> VNone ->
  model_init E t x None = None ->
  roundtrips_key E st topic t x.
Proof.
  intros s Ht Hm Hlaw Hown Hb Hnone Hi.
  destruct (encode_model_miss E topic t x None CNone st Ht Hm) as [Hdk _].
  cbv zeta in Hdk. rewrite Hown in Hdk. fold s in Hdk. rewrite Hb in Hdk.
  exists b, (logged [EvModelDumps (VModel t x None)] st).
  eexists. split; [exact Hdk|].
  apply (loads_key_decodes E t b _ (Return (VModel t x None)) _ Hnone).
  assert (Hs : py_or (declared_serializer t)
                 (key_serializer
                    (self (logged [EvModelDumps (VModel t x None)] st))) = s).
  { unfold py_or. fold s. now rewrite Ht. }
  rewrite Hs.
  apply (codec_decodes E _ s b t None (mkExn KeyError (repr s))
           (logged [EvModelDumps (VModel t x None)] st) x).
  - apply get_serializer_miss. exact Hm.
  - reflexivity.
  - now apply Hlaw.
  - exact Hi.
Qed.

(** A model that declares ["raw"], on [Registry()]. *)
Lemma model_key_roundtrip_witness :
  roundtrips_key sample_env fresh "topic1" Raw payload.
Proof.
  assert (Hb : payload <> VNone) by discriminate.
  assert (Hm : unresolvable (self fresh) (declared_serializer Raw))
    by (split; reflexivity).
  exact (model_key_roundtrip sample_env fresh "topic1" Raw payload payload
           eq_refl Hm (sample_raw_roundtrip sample_env eq_refl eq_refl)
           eq_refl eq_refl Hb eq_refl).
Defined.

(** ** Which default each operation reads *)

Lemma blind_ret {A} (a : A) : blind (ret a).
Proof. intros ks vs st. reflexivity. Qed.

Lemma blind_raise {A} (e : Exn) : blind (@raise A e).
Proof. intros ks vs st. reflexivity. Qed.

Lemma blind_lift {A} (r : Result A) : blind (lift r).
Proof. intros ks vs st. reflexivity. Qed.

Lemma blind_log ev : blind (log ev).
Proof. intros ks vs st. reflexivity. Qed.

Lemma blind_bind {A B} (m : M A) (k : A -> M B) :
  blind m -> (forall a, blind (k a)) -> blind (bind m k).
Proof.
  intros Hm Hk ks vs st. unfold bind. rewrite (Hm ks vs st).
  destruct (m st) as [[a|e] st1]; simpl; [apply Hk|reflexivity].
Qed.

Lemma blind_attempt {A} (m : M A) : blind m -> blind (attempt m).
Proof.
  intros Hm ks vs st. unfold attempt. rewrite (Hm ks vs st).
  now destruct (m st).
Qed.

Lemma blind_reraise_as {A} cls (m : M A) : blind m -> blind (reraise_as cls m).
Proof.
  intros Hm ks vs st. unfold reraise_as. rewrite (Hm ks vs st).
  destruct (m st) as [[a|e] st1]; simpl; [reflexivity|].
  now destruct (is_Exception e).
Qed.

Section Blind.

Context (E : Env).

Lemma blind_get_serializer name : blind (_get_serializer E name).
Proof.
  intros ks vs st. destruct name as [|n|c]; try reflexivity.
  unfold _get_serializer, bind, get_self. simpl.
  destruct (_override (self st) !! n) as [ser|]; [reflexivity|].
  destruct (override_classes (self st) !! n) as [path|]; [|reflexivity].
  unfold construct, bind, lift.
  destruct (symbol_by_name E path) as [cls|e]; [|reflexivity].
  destruct (ser_init E cls) as [e|]; reflexivity.
Qed.

Lemma blind_with_serializer {A} name (miss : M A) (hit : Ser -> M A) :
  blind miss -> (forall ser, blind (hit ser)) ->
  blind (with_serializer E name miss hit).
Proof.
  intros Hm Hh. unfold with_serializer.
  apply blind_bind; [apply blind_attempt, blind_get_serializer|].
  intros [ser|e]; [apply Hh|].
  destruct (is_KeyError e); [exact Hm|apply blind_raise].
Qed.

Lemma blind_call (ev : Event) (r : Result Val) :
  blind (log ev ;;; lift r).
Proof. apply blind_bind; [apply blind_log|intros; apply blind_lift]. Qed.

Lemma blind_typ_call t obj req : blind (typ_call E t obj req).
Proof.
  unfold typ_call. apply blind_bind; [apply blind_log|intros _].
  destruct (model_init E t obj req); [apply blind_raise|apply blind_ret].
Qed.

Lemma blind_dumps_key topic obj ov : blind (dumps_key E topic obj ov).
Proof.
  unfold dumps_key.
  destruct (as_model obj) as [t|];
    (match goal with |- context [truthy ?s] => destruct (truthy s) end;
     [apply blind_with_serializer; intros; try destruct (as_model obj);
      apply blind_call
     |destruct obj; try apply blind_ret; apply blind_call]).
Qed.

Lemma blind_dumps_value topic obj ov : blind (dumps_value E topic obj ov).
Proof.
  unfold dumps_value.
  destruct (as_model obj) as [t|];
    (match goal with |- context [truthy ?s] => destruct (truthy s) end;
     [apply blind_with_serializer; intros; apply blind_call
     |apply blind_ret]).
Qed.

(** The decode path for a fixed name. *)
Lemma blind_decode cls s data t req :
  blind (reraise_as cls
           (obj <- with_serializer E s (call_loads E s data)
                     (fun ser => call_ser_loads E ser data) ;;
            typ_call E t obj req)).
Proof.
  apply blind_reraise_as, blind_bind; [|intros; apply blind_typ_call].
  apply blind_with_serializer; intros; apply blind_call.
Qed.

End Blind.

(** X12: the encoders never read the Registry's defaults: with any other
    [key_serializer] and [value_serializer] configured, [dumps_key] and
    [dumps_value] return the same outcome, make the same outside calls and
    leave the same cache. *)
Theorem encoders_ignore_the_defaults
    (E : Env) (topic : string) (obj : Val) (ov ks vs : CodecArg) (st : State) :
  dumps_key E topic obj ov (reconfigure ks vs st) =
    (fst (dumps_key E topic obj ov st),
     reconfigure ks vs (snd (dumps_key E topic obj ov st))) /\
  dumps_value E topic obj ov (reconfigure ks vs st) =
    (fst (dumps_value E topic obj ov st),
     reconfigure ks vs (snd (dumps_value E topic obj ov st))).
Proof.
  split; [apply blind_dumps_key|apply blind_dumps_value].
Qed.

(** X13: each decoder reads only its own default: [loads_key] is
    unaffected by [value_serializer], and [loads_value] is unaffected by
    [key_serializer] and by the key it is passed. *)
Theorem decoders_read_their_own_default
    (E : Env) (typ : option ModelType) (k k' data : Val) (message : Message)
    (request : Request) (ks vs : CodecArg) (st : State) :
  loads_key E typ data (reconfigure (key_serializer (self st)) vs st) =
    (fst (loads_key E typ data st),
     reconfigure (key_serializer (self st)) vs (snd (loads_key E typ data st))) /\
  loads_value E typ k message request
    (reconfigure ks (value_serializer (self st)) st) =
    (fst (loads_value E typ k' message request st),
     reconfigure ks (value_serializer (self st))
       (snd (loads_value E typ k' message request st))).
Proof.
  split.
  - destruct typ as [t|]; [|now destruct data].
    assert (Hk : data = VNone \/ data <> VNone)
      by (destruct data; (now left) || (right; discriminate)).
    destruct Hk as [->|Hd]; [reflexivity|].
    rewrite !(loads_key_present E t data _ Hd). cbv zeta.
    apply blind_decode.
  - destruct message as [v].
    assert (Hv : v = VNone \/ v <> VNone)
      by (destruct v; (now left) || (right; discriminate)).
    destruct Hv as [->|Hd]; [reflexivity|].
    destruct typ as [t|].
    + rewrite (loads_value_present E t k v request _ Hd),
              (loads_value_present E t k' v request _ Hd). cbv zeta.
      apply blind_decode.
    + destruct v; try (now destruct Hd); reflexivity.
Qed.
